(** * Shopify collection weekly automation: model and properties

    A shallow embedding of [shopify_collection_update.py].  The script is a
    sequence of HTTP calls against a remote store, each wrapped in a
    [try ... except RequestException] block, followed by the assembly of a
    summary dictionary.  The embedding keeps

    - the dynamically typed values the script receives from [response.json()]
      ([pyval]) together with the Python operations it applies to them, each
      of which may raise;
    - exceptions, with the class test that [except RequestException] performs;
    - the remote store as an explicit state, threaded through every call,
      next to a chronological log of the calls issued and their outcomes.

    Log lines and the console report are not modelled; an expression that is
    evaluated only to be logged is kept when its evaluation can raise. *)

From Stdlib Require Import ZArith List String Ascii Bool Lia DecimalString.
Import ListNotations.

Open Scope string_scope.
Open Scope Z_scope.

Set Warnings "-register-all".

(** ** Python values and exceptions *)

(** Values decoded from JSON bodies and stored in the summary.  A dictionary
    is an association list in insertion order.  Floats do not occur in the
    script's own data and are left out. *)
Inductive pyval : Type :=
| PNone
| PBool (b : bool)
| PInt (z : Z)
| PStr (s : string)
| PList (items : list pyval)
| PDict (entries : list (string * pyval)).

Definition pydict : Type := list (string * pyval).

(** Exception classes.  [RequestException] stands for
    [requests.exceptions.RequestException] and all of its subclasses
    (ConnectionError, HTTPError, Timeout, ...); the other constructors are
    [Exception] subclasses outside that family. *)
Inductive exn : Type :=
| RequestException (detail : string)
| ValueError (msg : string)
| KeyError (key : string)
| TypeError
| AttributeError
| OtherException (name : string).

(** [isinstance(e, RequestException)], the test of every [except] clause of
    the client. *)
Definition is_request_exception (e : exn) : bool :=
  match e with
  | RequestException _ => true
  | _ => false
  end.

Inductive result (A : Type) : Type :=
| Return (a : A)
| Raise (e : exn).

Arguments Return {A} a.
Arguments Raise {A} e.

Definition and_then {A B} (r : result A) (f : A -> result B) : result B :=
  match r with
  | Return a => f a
  | Raise e => Raise e
  end.

Module Py.

(** [bool(v)] *)
Definition truthy (v : pyval) : bool :=
  match v with
  | PNone => false
  | PBool b => b
  | PInt z => negb (z =? 0)
  | PStr s => negb (String.eqb s "")
  | PList items => match items with [] => false | _ :: _ => true end
  | PDict entries => match entries with [] => false | _ :: _ => true end
  end.

Fixpoint lookup (entries : pydict) (key : string) : option pyval :=
  match entries with
  | [] => None
  | (k, v) :: rest => if String.eqb k key then Some v else lookup rest key
  end.

Definition find (entries : pydict) (key : string) (default : pyval) : pyval :=
  match lookup entries key with
  | Some x => x
  | None => default
  end.

(** [v.get(key, default)]: only dictionaries have the method. *)
Definition get (v : pyval) (key : string) (default : pyval) : result pyval :=
  match v with
  | PDict entries => Return (find entries key default)
  | _ => Raise AttributeError
  end.

(** [v[key]] with a string key. *)
Definition subscript (v : pyval) (key : string) : result pyval :=
  match v with
  | PDict entries =>
      match lookup entries key with
      | Some x => Return x
      | None => Raise (KeyError key)
      end
  | _ => Raise TypeError
  end.

(** [len(v)] *)
Definition len (v : pyval) : result Z :=
  match v with
  | PList items => Return (Z.of_nat (List.length items))
  | PDict entries => Return (Z.of_nat (List.length entries))
  | PStr s => Return (Z.of_nat (String.length s))
  | _ => Raise TypeError
  end.

(** The elements that [for x in v] visits. *)
Definition iter (v : pyval) : result (list pyval) :=
  match v with
  | PList items => Return items
  | PDict entries => Return (map (fun kv => PStr (fst kv)) entries)
  | PStr s =>
      Return (map (fun c => PStr (String c EmptyString)) (list_ascii_of_string s))
  | _ => Raise TypeError
  end.

(** [[x[key] for x in items]] *)
Fixpoint subscripts (items : list pyval) (key : string) : result (list pyval) :=
  match items with
  | [] => Return []
  | x :: rest =>
      match subscript x key with
      | Raise e => Raise e
      | Return v =>
          match subscripts rest key with
          | Raise e => Raise e
          | Return vs => Return (v :: vs)
          end
      end
  end.

(** [all([os.getenv(...) ...])] on values that are [None] or a string. *)
Definition env_truthy (v : option string) : bool :=
  match v with
  | None => false
  | Some s => negb (String.eqb s "")
  end.

End Py.

(** ** Requests and the call log *)

(** The four resources of the store, relative to the base URL. *)
Inductive resource : Type :=
| ProductsJson                                        (* /products.json *)
| CollectionJson (collection_id : string)             (* /collections/{id}.json *)
| CollectionProductsJson (collection_id : string)     (* /collections/{id}/products.json *)
| CollectionProductJson (collection_id : string) (product_id : pyval).
                                                      (* /collections/{id}/products/{pid}.json *)

Inductive http_method : Type :=
| GET (params : pydict)
| DELETE
| POST (json : pyval).

Record request : Type := mkRequest {
  rq_method : http_method;
  rq_base_url : string;
  rq_resource : resource;
  rq_auth : string * string
}.

(** One entry of the call log: the request and what the call produced, a
    decoded body or the exception raised by [requests] / [raise_for_status]
    / [response.json]. *)
Record event : Type := mkEvent {
  ev_request : request;
  ev_response : result pyval
}.

Definition is_delete (ev : event) : bool :=
  match rq_method (ev_request ev) with DELETE => true | _ => false end.

(** A call succeeded when it returned without raising. *)
Definition succeeded (ev : event) : bool :=
  match ev_response ev with Return _ => true | Raise _ => false end.

Definition count_succeeded (evs : list event) : Z :=
  Z.of_nat (List.length (filter succeeded evs)).

(** A summary that carries all six fields of the data model. *)
Definition summary_keys : list string :=
  ["success"; "collection_name"; "products_found"; "products_added";
   "collection_cleared"; "timestamp"].

Definition summary_complete (summary : pydict) : Prop :=
  forall key, In key summary_keys -> Py.lookup summary key <> None.


(** ** The automation object *)

Record ShopifyCollectionAutomation : Type := mkAutomation {
  api_key : string;
  password : string;
  shop_name : string;
  collection_id : string;
  base_url : string;
  auth : string * string
}.

(** The four variables read from the process environment. *)
Definition required_variables : list string :=
  ["SHOPIFY_API_KEY"; "SHOPIFY_PASSWORD"; "SHOPIFY_SHOP_NAME"; "COLLECTION_ID"].

Definition missing_env_message : string :=
  "Missing required environment variables. Please check your .env file.".

(** [ShopifyCollectionAutomation.__init__], reading the process environment
    through [getenv]. *)
Definition __init__ (getenv : string -> option string)
  : result ShopifyCollectionAutomation :=
  let api_key := getenv "SHOPIFY_API_KEY" in
  let password := getenv "SHOPIFY_PASSWORD" in
  let shop_name := getenv "SHOPIFY_SHOP_NAME" in
  let collection_id := getenv "COLLECTION_ID" in
  if negb (forallb Py.env_truthy [api_key; password; shop_name; collection_id])
  then Raise (ValueError missing_env_message)
  else
    match api_key, password, shop_name, collection_id with
    | Some k, Some p, Some s, Some c =>
        Return {| api_key := k;
                  password := p;
                  shop_name := s;
                  collection_id := c;
                  base_url := "https://" ++ s ++ ".myshopify.com/admin/api/2023-10";
                  auth := (k, p) |}
    | _, _, _, _ => Raise (ValueError missing_env_message)
    end.

(** ** The client and the workflow *)

Section Client.

(** The environment of a run: the state of everything outside the process
    ([World]), how it answers one HTTP call ([send]: the call itself,
    [raise_for_status] and the JSON decoding, so that the answer is a
    decoded body or an exception), the wall clock in seconds
    ([clock], for [datetime.now()]) and the rendering [isoformat]. *)
Context {World : Type}.
Variable send : request -> World -> result pyval * World.
Variable clock : World -> Z.
Variable isoformat : Z -> string.

Record state : Type := mkState {
  world : World;
  trace : list event
}.

(** Computations of the script: they read and update the state and either
    return a value or raise. *)
Definition M (A : Type) : Type := state -> result A * state.

Definition ret {A} (a : A) : M A := fun st => (Return a, st).

Definition bind {A B} (m : M A) (k : A -> M B) : M B :=
  fun st =>
    match m st with
    | (Return a, st') => k a st'
    | (Raise e, st') => (Raise e, st')
    end.

Definition lift {A} (r : result A) : M A := fun st => (r, st).

(** [try: body  except RequestException as e: handler] *)
Definition try_except {A} (body : M A) (handler : exn -> M A) : M A :=
  fun st =>
    match body st with
    | (Return a, st') => (Return a, st')
    | (Raise e, st') =>
        if is_request_exception e then handler e st' else (Raise e, st')
    end.

(** One HTTP round trip, recorded in the log. *)
Definition http (rq : request) : M pyval :=
  fun st =>
    let (resp, w) := send rq (world st) in
    (resp, {| world := w; trace := trace st ++ [mkEvent rq resp] |}).

(** [datetime.now()] *)
Definition now : M Z := fun st => (Return (clock (world st)), st).

Notation "x <- m ;; k" := (bind m (fun x => k))
  (at level 61, m at next level, right associativity).

(** The accumulating loop shared by the clear and the populate pass:
    [for x in xs: if body(x): success_count += 1]. *)
Fixpoint count_loop {A} (body : A -> M bool) (xs : list A) (success_count : Z)
  : M Z :=
  match xs with
  | [] => ret success_count
  | x :: rest =>
      ok <- body x ;;
      count_loop body rest (if ok then success_count + 1 else success_count)
  end.

Definition seconds_per_day : Z := 86400.

Definition products_params (cutoff_date : string) : pydict :=
  [("created_at_min", PStr cutoff_date);
   ("limit", PInt 250);
   ("status", PStr "active")].

Definition products_request (self : ShopifyCollectionAutomation)
           (cutoff_date : string) : request :=
  {| rq_method := GET (products_params cutoff_date);
     rq_base_url := base_url self;
     rq_resource := ProductsJson;
     rq_auth := auth self |}.

Definition members_request (self : ShopifyCollectionAutomation)
           (collection_id : string) : request :=
  {| rq_method := GET [];
     rq_base_url := base_url self;
     rq_resource := CollectionProductsJson collection_id;
     rq_auth := auth self |}.

Definition remove_request (self : ShopifyCollectionAutomation)
           (collection_id : string) (product_id : pyval) : request :=
  {| rq_method := DELETE;
     rq_base_url := base_url self;
     rq_resource := CollectionProductJson collection_id product_id;
     rq_auth := auth self |}.

Definition add_request (self : ShopifyCollectionAutomation)
           (collection_id : string) (product_id : pyval) : request :=
  {| rq_method := POST (PDict [("product", PDict [("id", product_id)])]);
     rq_base_url := base_url self;
     rq_resource := CollectionProductsJson collection_id;
     rq_auth := auth self |}.

Definition info_request (self : ShopifyCollectionAutomation)
           (collection_id : string) : request :=
  {| rq_method := GET [];
     rq_base_url := base_url self;
     rq_resource := CollectionJson collection_id;
     rq_auth := auth self |}.

(** The cutoff is computed on unbounded integers: the [OverflowError] that
    the subtraction raises for a lookback outside the range of [datetime] is
    not modelled.  The workflow always passes 7. *)
Definition get_new_products (self : ShopifyCollectionAutomation)
           (days_back : Z) : M pyval :=
  t <- now ;;
  let cutoff_date := isoformat (t - days_back * seconds_per_day) in
  try_except
    (products_data <- http (products_request self cutoff_date) ;;
     products <- lift (Py.get products_data "products" (PList [])) ;;
     _ <- lift (Py.len products) ;;
     ret products)
    (fun _ => ret (PList [])).

Definition get_collection_products (self : ShopifyCollectionAutomation)
           (collection_id : string) : M pyval :=
  try_except
    (products_data <- http (members_request self collection_id) ;;
     products <- lift (Py.get products_data "products" (PList [])) ;;
     _ <- lift (Py.len products) ;;
     ret products)
    (fun _ => ret (PList [])).

Definition remove_product_from_collection (self : ShopifyCollectionAutomation)
           (collection_id : string) (product_id : pyval) : M bool :=
  try_except
    (_ <- http (remove_request self collection_id product_id) ;;
     ret true)
    (fun _ => ret false).

Definition clear_collection (self : ShopifyCollectionAutomation)
           (collection_id : string) : M bool :=
  current_products <- get_collection_products self collection_id ;;
  if negb (Py.truthy current_products) then ret true
  else
    items <- lift (Py.iter current_products) ;;
    success_count <-
      count_loop
        (fun product =>
           product_id <- lift (Py.subscript product "id") ;;
           remove_product_from_collection self collection_id product_id)
        items 0 ;;
    n <- lift (Py.len current_products) ;;
    ret (success_count =? n).

Definition add_product_to_collection (self : ShopifyCollectionAutomation)
           (collection_id : string) (product_id : pyval) : M bool :=
  try_except
    (_ <- http (add_request self collection_id product_id) ;;
     ret true)
    (fun _ => ret false).

Definition add_products_to_collection (self : ShopifyCollectionAutomation)
           (collection_id : string) (product_ids : list pyval) : M Z :=
  count_loop (add_product_to_collection self collection_id) product_ids 0.

Definition get_collection_info (self : ShopifyCollectionAutomation)
           (collection_id : string) : M pyval :=
  try_except
    (collection_data <- http (info_request self collection_id) ;;
     lift (Py.get collection_data "collection" PNone))
    (fun _ => ret PNone).

Definition timestamp : M pyval :=
  t <- now ;; ret (PStr (isoformat t)).

Definition run_weekly_update (self : ShopifyCollectionAutomation) : M pydict :=
  collection_info <- get_collection_info self (collection_id self) ;;
  if negb (Py.truthy collection_info) then
    ts <- timestamp ;;
    ret [("success", PBool false);
         ("error", PStr "Could not fetch collection information");
         ("timestamp", ts)]
  else
    _ <- lift (Py.get collection_info "title" (PStr "Unknown")) ;;
    new_products <- get_new_products self 7 ;;
    if negb (Py.truthy new_products) then
      ts <- timestamp ;;
      ret [("success", PBool true);
           ("products_found", PInt 0);
           ("products_added", PInt 0);
           ("message", PStr "No new products to add");
           ("timestamp", ts)]
    else
      clear_success <- clear_collection self (collection_id self) ;;
      items <- lift (Py.iter new_products) ;;
      product_ids <- lift (Py.subscripts items "id") ;;
      added_count <-
        add_products_to_collection self (collection_id self) product_ids ;;
      title <- lift (Py.get collection_info "title" (PStr "Unknown")) ;;
      found <- lift (Py.len new_products) ;;
      ts <- timestamp ;;
      ret [("success", PBool true);
           ("collection_name", title);
           ("products_found", PInt found);
           ("products_added", PInt added_count);
           ("collection_cleared", PBool clear_success);
           ("timestamp", ts)].

(** [main]: the exit code of the process.  Every exception of the model is
    an [Exception] and is turned into exit code 1 by the handler. *)
Definition main (getenv : string -> option string) : state -> Z * state :=
  fun st =>
    match __init__ getenv with
    | Raise _ => (1, st)
    | Return automation =>
        match run_weekly_update automation st with
        | (Return result, st') =>
            match Py.get (PDict result) "success" PNone with
            | Return flag => ((if Py.truthy flag then 0 else 1), st')
            | Raise _ => (1, st')
            end
        | (Raise _, st') => (1, st')
        end
    end.

(** *** Notions used to state the properties *)

(** What the environment answers to [rq] in state [st], and the state
    after that call. *)
Definition answer (rq : request) (st : state) : result pyval :=
  fst (send rq (world st)).

Definition logged (rq : request) (st : state) : state :=
  {| world := snd (send rq (world st));
     trace := trace st ++ [mkEvent rq (answer rq st)] |}.


(** The error model of the client: whatever a call raises is a transport
    or HTTP error of the [requests] family. *)
Definition transport_errors_only : Prop :=
  forall rq w e, fst (send rq w) = Raise e -> is_request_exception e = true.

(** What an [except RequestException] clause with result [fallback] makes
    of an outcome. *)
Definition degrade {A} (fallback : A) (r : result A) : result A :=
  match r with
  | Return a => Return a
  | Raise e => if is_request_exception e then Return fallback else Raise e
  end.

(** The sequence a listing operation extracts from a decoded body. *)
Definition unwrap_products (body : pyval) : result pyval :=
  and_then (Py.get body "products" (PList []))
           (fun products => and_then (Py.len products) (fun _ => Return products)).

(** The [created_at_min] bound of a listing issued in state [st]. *)
Definition cutoff (days_back : Z) (st : state) : string :=
  isoformat (clock (world st) - days_back * seconds_per_day).

(** The time stamp a summary assembled in state [st] carries. *)
Definition stamp (st : state) : pyval := PStr (isoformat (clock (world st))).

(** The three shapes of a summary. *)
Definition failure_summary (ts : pyval) : pydict :=
  [("success", PBool false);
   ("error", PStr "Could not fetch collection information");
   ("timestamp", ts)].

Definition empty_summary (ts : pyval) : pydict :=
  [("success", PBool true);
   ("products_found", PInt 0);
   ("products_added", PInt 0);
   ("message", PStr "No new products to add");
   ("timestamp", ts)].

Definition full_summary (title : pyval) (found added : Z) (cleared : bool)
           (ts : pyval) : pydict :=
  [("success", PBool true);
   ("collection_name", title);
   ("products_found", PInt found);
   ("products_added", PInt added);
   ("collection_cleared", PBool cleared);
   ("timestamp", ts)].

End Client.

(** ** A remote store

    The store behind the API, reduced to what the workflow touches: the
    ordered membership of the target collection, the two documents served
    for the collection and for the recent-products listing, and a counter of
    the calls served.  Which calls fail is fixed by a schedule
    [faults : nat -> option exn], indexed by the call's position; a call the
    schedule lets through is applied: a listing returns the whole
    membership, a removal or an addition of an integer identifier updates
    it.  There is a single writer. *)
Module Remote.

Record store : Type := mkStore {
  members : list Z;
  collection_doc : pyval;
  products_doc : pyval;
  served : nat;
  time : Z
}.

Definition remove_member (z : Z) (ms : list Z) : list Z :=
  filter (fun m => negb (m =? z)) ms.

Definition add_member (z : Z) (ms : list Z) : list Z :=
  if existsb (Z.eqb z) ms then ms else ms ++ [z].

(** The body of the member listing. *)
Definition member_doc (ms : list Z) : pyval :=
  PDict [("products", PList (map (fun m => PDict [("id", PInt m)]) ms))].

Definition tick (s : store) : store :=
  {| members := members s;
     collection_doc := collection_doc s;
     products_doc := products_doc s;
     served := S (served s);
     time := time s + 1 |}.

Definition with_members (ms : list Z) (s : store) : store :=
  {| members := ms;
     collection_doc := collection_doc s;
     products_doc := products_doc s;
     served := served s;
     time := time s |}.

Definition not_found : exn := RequestException "404 Client Error".
Definition unprocessable : exn := RequestException "422 Client Error".

(** The product identifier a POST body names, when it is an integer. *)
Definition posted_id (json : pyval) : option Z :=
  match Py.subscript json "product" with
  | Return p =>
      match Py.subscript p "id" with
      | Return (PInt z) => Some z
      | _ => None
      end
  | Raise _ => None
  end.

Definition send (faults : nat -> option exn) (rq : request) (s : store)
  : result pyval * store :=
  let s' := tick s in
  match faults (served s) with
  | Some e => (Raise e, s')
  | None =>
      match rq_method rq, rq_resource rq with
      | GET _, ProductsJson => (Return (products_doc s), s')
      | GET _, CollectionJson _ => (Return (collection_doc s), s')
      | GET _, CollectionProductsJson _ => (Return (member_doc (members s)), s')
      | DELETE, CollectionProductJson _ (PInt z) =>
          (Return (PDict []), with_members (remove_member z (members s)) s')
      | DELETE, _ => (Raise not_found, s')
      | POST json, CollectionProductsJson _ =>
          match posted_id json with
          | Some z => (Return (PDict []), with_members (add_member z (members s)) s')
          | None => (Raise unprocessable, s')
          end
      | _, _ => (Raise not_found, s')
      end
  end.

Definition clock (s : store) : Z := time s.

(** Membership after removing, or adding, a sequence of identifiers. *)
Definition remove_all (zs ms : list Z) : list Z :=
  fold_left (fun acc z => remove_member z acc) zs ms.

Definition add_all (zs ms : list Z) : list Z :=
  fold_left (fun acc z => add_member z acc) zs ms.

(** A schedule on which nothing fails, and one on which exactly the call
    at position [k] fails with a server error. *)
Definition no_faults : nat -> option exn := fun _ => None.

Definition fault_at (k : nat) : nat -> option exn :=
  fun n => if Nat.eqb n k then Some (RequestException "500 Server Error") else None.

Definition start (s : store) : @state store := mkState s [].

End Remote.

(** ** Fixtures *)

Module Fixture.

(** A stand-in for [isoformat]: the runs below start at time 1000, so that a
    cutoff seven days back and a completion time render differently. *)
Definition isoformat (t : Z) : string :=
  if t <? 1000 then "2025-09-01T00:00:00" else "2025-09-08T00:00:00".

Definition getenv (name : string) : option string :=
  if String.eqb name "SHOPIFY_API_KEY" then Some "key"
  else if String.eqb name "SHOPIFY_PASSWORD" then Some "secret"
  else if String.eqb name "SHOPIFY_SHOP_NAME" then Some "demo"
  else if String.eqb name "COLLECTION_ID" then Some "42"
  else None.

(** The same environment with the store name set to the empty string. *)
Definition getenv_blank_shop (name : string) : option string :=
  if String.eqb name "SHOPIFY_SHOP_NAME" then Some "" else getenv name.

Definition self : ShopifyCollectionAutomation :=
  {| api_key := "key";
     password := "secret";
     shop_name := "demo";
     collection_id := "42";
     base_url := "https://demo.myshopify.com/admin/api/2023-10";
     auth := ("key", "secret") |}.

Definition product (z : Z) : pyval :=
  PDict [("id", PInt z); ("title", PStr "item")].

Definition listing (ids : list Z) : pyval :=
  PDict [("products", PList (map product ids))].

Definition weekly : pyval :=
  PDict [("collection", PDict [("id", PInt 42); ("title", PStr "New this week")])].

Definition shop (ms recent : list Z) : Remote.store :=
  {| Remote.members := ms;
     Remote.collection_doc := weekly;
     Remote.products_doc := listing recent;
     Remote.served := 0;
     Remote.time := 1000 |}.

Definition run (faults : nat -> option exn) (s : Remote.store)
  : result pydict * @state Remote.store :=
  run_weekly_update (Remote.send faults) Remote.clock isoformat self
                    (Remote.start s).

End Fixture.

(** ** The rules of a store *)

(** The effect on the set of members of a removal, or an addition, of [pid]
    that was applied. *)
Definition member_removed (pid : pyval) (before after : list Z) : Prop :=
  exists z, pid = PInt z /\ forall m, In m after <-> In m before /\ m <> z.

Definition member_added (pid : pyval) (before after : list Z) : Prop :=
  exists z, pid = PInt z /\ forall m, In m after <-> In m before \/ m = z.



(** What is assumed of a service that keeps the collection as a set of
    integer identifiers, with a single writer: a read leaves the set alone,
    and a removal or an addition that is answered has been applied.  Nothing
    is assumed of which calls fail, nor of what a listing returns. *)
Record store_rules
       (send : request -> Remote.store -> result pyval * Remote.store) : Prop :=
  mkStoreRules {
    reads_keep_members :
      forall rq params s m,
        rq_method rq = GET params ->
        (In m (Remote.members (snd (send rq s))) <-> In m (Remote.members s));
    answered_removal_applied :
      forall self cid pid s body,
        fst (send (remove_request self cid pid) s) = Return body ->
        member_removed pid (Remote.members s)
                       (Remote.members (snd (send (remove_request self cid pid) s)));
    answered_addition_applied :
      forall self cid pid s body,
        fst (send (add_request self cid pid) s) = Return body ->
        member_added pid (Remote.members s)
                     (Remote.members (snd (send (add_request self cid pid) s)))
  }.

(** A store whose member listing is one page: it returns the first [limit]
    members and there is no second call for the rest.  Every other call is
    served as by [Remote.send]. *)
Module Paged.

Definition send (limit : nat) (faults : nat -> option exn) (rq : request)
           (s : Remote.store) : result pyval * Remote.store :=
  match rq_method rq, rq_resource rq with
  | GET _, CollectionProductsJson _ =>
      match faults (Remote.served s) with
      | Some e => (Raise e, Remote.tick s)
      | None =>
          (Return (Remote.member_doc (firstn limit (Remote.members s))),
           Remote.tick s)
      end
  | _, _ => Remote.send faults rq s
  end.

End Paged.

(** ** The console report of [main] *)

Section Console.

Context {World : Type}.
Variable send : request -> World -> result pyval * World.
Variable clock : World -> Z.
Variable isoformat : Z -> string.

(** [str()] of a list or a dictionary, and of an exception, are left to the
    environment. *)
Variable repr : pyval -> string.
Variable describe : exn -> string.

(** [str(v)], as an f-string renders a value. *)
Definition py_str (v : pyval) : string :=
  match v with
  | PNone => "None"
  | PBool true => "True"
  | PBool false => "False"
  | PInt z => NilZero.string_of_int (Z.to_int z)
  | PStr s => s
  | PList _ => repr v
  | PDict _ => repr v
  end.

Fixpoint repeat_string (s : string) (n : nat) : string :=
  match n with
  | O => ""
  | S n' => s ++ repeat_string s n'
  end.

(** ["="*50] *)
Definition rule : string := repeat_string "=" 50.

Definition newline : string := String (ascii_of_nat 10) EmptyString.

(** The lines [main] prints for a summary, one per [print]. *)
Definition report_fields (result : pydict) : list string :=
  [newline ++ rule;
   "SHOPIFY COLLECTION AUTOMATION SUMMARY";
   rule;
   "Collection: " ++ py_str (Py.find result "collection_name" (PStr "Unknown"));
   "Products Found: " ++ py_str (Py.find result "products_found" (PInt 0));
   "Products Added: " ++ py_str (Py.find result "products_added" (PInt 0));
   "Collection Cleared: "
     ++ py_str (Py.find result "collection_cleared" (PBool false));
   "Status: "
     ++ (if Py.truthy (Py.find result "success" PNone)
         then "SUCCESS" else "FAILED");
   "Timestamp: " ++ py_str (Py.find result "timestamp" (PStr "Unknown"))].

Definition report_error (result : pydict) : list string :=
  match Py.lookup result "error" with
  | Some e => ["Error: " ++ py_str e]
  | None => []
  end.

Definition report (result : pydict) : list string :=
  List.app (report_fields result) (List.app (report_error result) [rule]).

(** [main] with what it prints: the exit code and the printed lines. *)
Definition main_console (getenv : string -> option string)
  : @state World -> (Z * list string) * @state World :=
  fun st =>
    match __init__ getenv with
    | Raise e => ((1, [newline ++ "ERROR: " ++ describe e]), st)
    | Return automation =>
        match run_weekly_update send clock isoformat automation st with
        | (Return result, st') =>
            (((if Py.truthy (Py.find result "success" PNone) then 0 else 1),
              report result),
             st')
        | (Raise e, st') => ((1, [newline ++ "ERROR: " ++ describe e]), st')
        end
    end.

(** *** Relations kept by every step of a computation *)

(** [m] relates the state it starts in to the state it ends in by [R],
    whether it returns or raises. *)
Definition respects {A} (R : @state World -> @state World -> Prop)
           (m : @M World A) : Prop :=
  forall st r st', m st = (r, st') -> R st st'.

End Console.

(** The remote store serves the same two documents in both states. *)
Definition same_docs (st st' : @state Remote.store) : Prop :=
  Remote.collection_doc (world st') = Remote.collection_doc (world st) /\
  Remote.products_doc (world st') = Remote.products_doc (world st).

(** Stores that serve arbitrary documents. *)
Module Cases.

Definition serving (collection products : pyval) (ms : list Z) : Remote.store :=
  {| Remote.members := ms;
     Remote.collection_doc := collection;
     Remote.products_doc := products;
     Remote.served := 0;
     Remote.time := 1000 |}.


(** A store whose product listing holds one product without identifier. *)
Definition without_id (ms : list Z) : Remote.store :=
  serving (PDict [("collection",
                   PDict [("id", PInt 42); ("title", PStr "New this week")])])
          (PDict [("products", PList [PDict [("title", PStr "no id")]])])
          ms.

(** An environment that answers from a script: one entry per call, a body or
    [None] for a call that fails; a call beyond the script fails. *)
Definition scripted (rq : request) (script : list (option pyval))
  : result pyval * list (option pyval) :=
  match script with
  | Some body :: rest => (Return body, rest)
  | None :: rest => (Raise (RequestException "502 Server Error"), rest)
  | [] => (Raise (RequestException "connection refused"), [])
  end.

Definition noon (script : list (option pyval)) : Z := 1000.

(** A member listing whose second member has no identifier, followed by the
    answer to one removal. *)
Definition broken_members : list (option pyval) :=
  [Some (PDict [("products",
                 PList [PDict [("id", PInt 1)];
                        PDict [("handle", PStr "no id")];
                        PDict [("id", PInt 3)]])]);
   Some (PDict [])].

(** A store whose product listing has [null] for its products. *)
Definition null_products (ms : list Z) : Remote.store :=
  serving (PDict [("collection",
                   PDict [("id", PInt 42); ("title", PStr "New this week")])])
          (PDict [("products", PNone)])
          ms.

(** A script whose single answer is a JSON list. *)
Definition list_body : list (option pyval) := [Some (PList [PInt 1])].

(** A store whose metadata document has no 'collection'. *)
Definition no_record (ms : list Z) : Remote.store :=
  serving (PDict [("errors", PStr "Not Found")])
          (PDict [("products", PList [PDict [("id", PInt 101)]])])
          ms.

Definition repr (v : pyval) : string := "<container>".
Definition describe (e : exn) : string :=
  match e with
  | RequestException detail => detail
  | ValueError msg => msg
  | KeyError key => "'" ++ key ++ "'"
  | TypeError => "TypeError"
  | AttributeError => "AttributeError"
  | OtherException name => name
  end.

End Cases.

(** ** Properties of the Python operations *)

Lemma subscripts_length items key ids :
  Py.subscripts items key = Return ids -> List.length ids = List.length items.
Proof.
  revert ids; induction items as [|x rest IH]; simpl; intros ids H.
  - inversion H; reflexivity.
  - destruct (Py.subscript x key); [|discriminate].
    destruct (Py.subscripts rest key) as [vs|]; [|discriminate].
    inversion H; subst; simpl; f_equal; apply IH; reflexivity.
Qed.

Lemma Forall2_nth_left {A B} (R : A -> B -> Prop) xs ys i x :
  Forall2 R xs ys ->
  nth_error xs i = Some x ->
  exists y, nth_error ys i = Some y /\ R x y.
Proof.
  intros Hall; revert i; induction Hall as [|a b xs ys Hab _ IH]; intros i Hi.
  - destruct i; discriminate.
  - destruct i as [|i]; simpl in *.
    + inversion Hi; subst; eauto.
    + apply IH; exact Hi.
Qed.

Lemma subscripts_Forall2 items key ids :
  Py.subscripts items key = Return ids ->
  Forall2 (fun x v => Py.subscript x key = Return v) items ids.
Proof.
  revert ids; induction items as [|x rest IH]; simpl; intros ids H.
  - inversion H; constructor.
  - destruct (Py.subscript x key) eqn:Hx; [|discriminate].
    destruct (Py.subscripts rest key) as [vs|]; [|discriminate].
    inversion H; subst; constructor; auto.
Qed.

(** A non-empty value whose elements can all be subscripted by a string is
    a list: the elements of a dictionary or of a string are strings. *)
Lemma iterable_with_ids_is_list v items ids key :
  Py.truthy v = true ->
  Py.iter v = Return items ->
  Py.subscripts items key = Return ids ->
  v = PList items.
Proof.
  destruct v; simpl; intros Ht Hi Hs; try discriminate.
  - destruct s as [|c s]; [discriminate|].
    inversion Hi; subst; simpl in Hs; discriminate.
  - inversion Hi; reflexivity.
  - destruct entries as [|[k x] rest]; [discriminate|].
    inversion Hi; subst; simpl in Hs; discriminate.
Qed.

Lemma count_succeeded_cons ev evs :
  count_succeeded (ev :: evs) =
  (if succeeded ev then 1 else 0) + count_succeeded evs.
Proof.
  unfold count_succeeded; cbn [filter]; destruct (succeeded ev);
    cbn [List.length]; rewrite ?Nat2Z.inj_succ; lia.
Qed.

Lemma count_succeeded_bounds evs :
  0 <= count_succeeded evs <= Z.of_nat (List.length evs).
Proof.
  induction evs as [|ev evs IH].
  - unfold count_succeeded; simpl; lia.
  - rewrite count_succeeded_cons; cbn [List.length]; rewrite Nat2Z.inj_succ.
    destruct (succeeded ev); lia.
Qed.

(** ** The client operations, one call each *)

Lemma bind_run {World A B} (m : @M World A) (k : A -> M B) (st : @state World) :
  bind m k st =
  match m st with
  | (Return a, st') => k a st'
  | (Raise e, st') => (Raise e, st')
  end.
Proof. reflexivity. Qed.

(** Step over a bind whose first computation is a lifted pure result. *)
Ltac step := rewrite bind_run; unfold lift at 1; cbv beta iota.
Ltac step_in H :=
  rewrite bind_run in H; unfold lift at 1 in H; cbv beta iota in H.

Section ClientFacts.

Context {World : Type}.
Variable send : request -> World -> result pyval * World.
Variable clock : World -> Z.
Variable isoformat : Z -> string.

Lemma http_eq rq (st : @state World) :
  http send rq st = (answer send rq st, logged send rq st).
Proof.
  unfold http, logged, answer.
  destruct (send rq (world st)); reflexivity.
Qed.

Lemma get_collection_info_eq self cid (st : @state World) :
  get_collection_info send self cid st =
  (degrade PNone (and_then (answer send (info_request self cid) st)
                           (fun d => Py.get d "collection" PNone)),
   logged send (info_request self cid) st).
Proof.
  unfold get_collection_info, try_except, bind, lift, ret; rewrite http_eq.
  destruct (answer send (info_request self cid) st) as [body|e]; simpl.
  - destruct (Py.get body "collection" PNone) as [v|e]; simpl; [reflexivity|].
    destruct (is_request_exception e); reflexivity.
  - destruct (is_request_exception e); reflexivity.
Qed.

Lemma listing_eq rq (st : @state World) :
  try_except
    (bind (http send rq) (fun products_data =>
     bind (lift (Py.get products_data "products" (PList []))) (fun products =>
     bind (lift (Py.len products)) (fun _ => ret products))))
    (fun _ => ret (PList [])) st
  = (degrade (PList []) (and_then (answer send rq st) unwrap_products),
     logged send rq st).
Proof.
  unfold try_except, bind, lift, ret, unwrap_products; rewrite http_eq.
  destruct (answer send rq st) as [body|e]; simpl.
  - destruct (Py.get body "products" (PList [])) as [v|e]; simpl.
    + destruct (Py.len v) as [n|e]; simpl; [reflexivity|].
      destruct (is_request_exception e); reflexivity.
    + destruct (is_request_exception e); reflexivity.
  - destruct (is_request_exception e); reflexivity.
Qed.

Lemma get_collection_products_eq self cid (st : @state World) :
  get_collection_products send self cid st =
  (degrade (PList []) (and_then (answer send (members_request self cid) st)
                                unwrap_products),
   logged send (members_request self cid) st).
Proof. apply listing_eq. Qed.

Lemma get_new_products_eq self days_back (st : @state World) :
  get_new_products send clock isoformat self days_back st =
  (degrade (PList [])
           (and_then (answer send (products_request self (cutoff clock isoformat days_back st)) st)
                     unwrap_products),
   logged send (products_request self (cutoff clock isoformat days_back st)) st).
Proof.
  unfold get_new_products, now.
  unfold bind at 1.
  apply listing_eq.
Qed.

Lemma flag_call_eq rq (st : @state World) :
  try_except (bind (http send rq) (fun _ => ret true)) (fun _ => ret false) st
  = (degrade false (and_then (answer send rq st) (fun _ => Return true)),
     logged send rq st).
Proof.
  unfold try_except, bind, ret; rewrite http_eq.
  destruct (answer send rq st) as [body|e]; simpl; [reflexivity|].
  destruct (is_request_exception e); reflexivity.
Qed.

Lemma remove_product_from_collection_eq self cid pid (st : @state World) :
  remove_product_from_collection send self cid pid st =
  (degrade false (and_then (answer send (remove_request self cid pid) st)
                           (fun _ => Return true)),
   logged send (remove_request self cid pid) st).
Proof. apply flag_call_eq. Qed.

Lemma add_product_to_collection_eq self cid pid (st : @state World) :
  add_product_to_collection send self cid pid st =
  (degrade false (and_then (answer send (add_request self cid pid) st)
                           (fun _ => Return true)),
   logged send (add_request self cid pid) st).
Proof. apply flag_call_eq. Qed.

(** ** The two loops *)

Hypothesis transport : transport_errors_only send.

Lemma flag_call_succeeded rq (st : @state World) :
  degrade false (and_then (answer send rq st) (fun _ => Return true))
  = Return (succeeded (mkEvent rq (answer send rq st))).
Proof.
  unfold succeeded; simpl.
  destruct (answer send rq st) as [body|e] eqn:E; simpl; [reflexivity|].
  unfold answer in E; rewrite (transport _ _ _ E); reflexivity.
Qed.

Lemma count_loop_calls {A} (body : A -> M bool) (rq_of : A -> request) :
  (forall x st,
      body x st = (Return (succeeded (mkEvent (rq_of x) (answer send (rq_of x) st))),
                   logged send (rq_of x) st)) ->
  forall xs acc (st : @state World),
  exists evs st',
    count_loop body xs acc st = (Return (acc + count_succeeded evs), st') /\
    trace st' = (trace st ++ evs)%list /\
    map ev_request evs = map rq_of xs.
Proof.
  intros Hbody; induction xs as [|x rest IH]; intros acc st.
  - exists [], st; simpl; unfold ret, count_succeeded; simpl.
    rewrite Z.add_0_r, app_nil_r; auto.
  - cbn [count_loop]; unfold bind at 1; rewrite Hbody.
    set (ev := mkEvent (rq_of x) (answer send (rq_of x) st)).
    destruct (IH (if succeeded ev then acc + 1 else acc) (logged send (rq_of x) st))
      as (evs & st' & Hrun & Htrace & Hreqs).
    exists (ev :: evs), st'; repeat split.
    + rewrite Hrun, count_succeeded_cons.
      destruct (succeeded ev); do 2 f_equal; lia.
    + rewrite Htrace; simpl; rewrite <- app_assoc; reflexivity.
    + simpl; rewrite Hreqs; reflexivity.
Qed.

Lemma count_loop_subscripts (f : pyval -> M bool) key items ids acc
      (st : @state World) :
  Py.subscripts items key = Return ids ->
  count_loop (fun x => bind (lift (Py.subscript x key)) f) items acc st
  = count_loop f ids acc st.
Proof.
  revert ids acc st; induction items as [|x rest IH]; intros ids acc st H.
  - inversion H; reflexivity.
  - cbn [Py.subscripts] in H.
    destruct (Py.subscript x key) as [v|] eqn:Hx; [|discriminate].
    destruct (Py.subscripts rest key) as [vs|] eqn:Hr; [|discriminate].
    inversion H; subst; clear H.
    cbn [count_loop]; rewrite Hx, !bind_run.
    unfold lift at 1; cbv beta iota.
    destruct (f v st) as [[ok|e] st1]; [|reflexivity].
    apply IH; reflexivity.
Qed.

(** The populate pass posts once per identifier, in order, and returns the
    number of posts that succeeded. *)
Lemma add_products_to_collection_log self cid ids (st : @state World) :
  exists posts st',
    add_products_to_collection send self cid ids st
    = (Return (count_succeeded posts), st') /\
    trace st' = (trace st ++ posts)%list /\
    map ev_request posts = map (add_request self cid) ids.
Proof.
  unfold add_products_to_collection.
  destruct (count_loop_calls (add_product_to_collection send self cid)
                             (add_request self cid)) with (xs := ids) (acc := 0) (st := st)
    as (posts & st' & Hrun & Htrace & Hreqs).
  - intros x st0; rewrite add_product_to_collection_eq, flag_call_succeeded.
    reflexivity.
  - exists posts, st'; rewrite Hrun; auto.
Qed.

(** The clear pass when the listing is empty: nothing is removed. *)
Lemma clear_collection_empty self cid products (st st1 : @state World) :
  get_collection_products send self cid st = (Return products, st1) ->
  Py.truthy products = false ->
  clear_collection send self cid st = (Return true, st1).
Proof.
  intros Hlist Hfalsy.
  unfold clear_collection, bind; rewrite Hlist, Hfalsy; reflexivity.
Qed.

(** The clear pass on a non-empty listing: one removal per member, in
    order; the result compares the successes with the member count. *)
Lemma clear_collection_log self cid items mids (st st1 : @state World) :
  get_collection_products send self cid st = (Return (PList items), st1) ->
  items <> [] ->
  Py.subscripts items "id" = Return mids ->
  exists dels st2,
    clear_collection send self cid st
    = (Return (count_succeeded dels =? Z.of_nat (List.length items)), st2) /\
    trace st2 = (trace st1 ++ dels)%list /\
    map ev_request dels = map (remove_request self cid) mids.
Proof.
  intros Hlist Hne Hids.
  destruct (count_loop_calls (remove_product_from_collection send self cid)
                             (remove_request self cid)) with (xs := mids) (acc := 0) (st := st1)
    as (dels & st2 & Hrun & Htrace & Hreqs).
  - intros x st0; rewrite remove_product_from_collection_eq, flag_call_succeeded.
    reflexivity.
  - exists dels, st2; repeat split; auto.
    unfold clear_collection; rewrite bind_run, Hlist.
    destruct items as [|p rest]; [contradiction|].
    cbn [Py.truthy negb Py.iter Py.len].
    step.
    rewrite bind_run, (count_loop_subscripts _ _ _ _ _ _ Hids).
    change (fun product_id : pyval =>
              remove_product_from_collection send self cid product_id)
      with (remove_product_from_collection send self cid).
    rewrite Hrun; reflexivity.
Qed.

(** ** The three terminal paths of the workflow *)

Lemma run_failure self info (st0 st1 : @state World) :
  get_collection_info send self (collection_id self) st0 = (Return info, st1) ->
  Py.truthy info = false ->
  run_weekly_update send clock isoformat self st0
  = (Return (failure_summary (stamp clock isoformat st1)), st1).
Proof.
  intros Hinfo Hfalsy.
  unfold run_weekly_update; rewrite bind_run, Hinfo, Hfalsy; reflexivity.
Qed.

Lemma run_empty self entries products (st0 st1 st2 : @state World) :
  get_collection_info send self (collection_id self) st0
  = (Return (PDict entries), st1) ->
  entries <> [] ->
  get_new_products send clock isoformat self 7 st1 = (Return products, st2) ->
  Py.truthy products = false ->
  run_weekly_update send clock isoformat self st0
  = (Return (empty_summary (stamp clock isoformat st2)), st2).
Proof.
  intros Hinfo Hne Hnew Hfalsy.
  unfold run_weekly_update; rewrite bind_run, Hinfo.
  destruct entries as [|kv rest]; [contradiction|].
  cbn [Py.truthy negb Py.get].
  step.
  rewrite bind_run, Hnew, Hfalsy; reflexivity.
Qed.

Lemma run_full self entries items ids cleared added
      (st0 st1 st2 st3 st4 : @state World) :
  get_collection_info send self (collection_id self) st0
  = (Return (PDict entries), st1) ->
  entries <> [] ->
  get_new_products send clock isoformat self 7 st1 = (Return (PList items), st2) ->
  items <> [] ->
  clear_collection send self (collection_id self) st2 = (Return cleared, st3) ->
  Py.subscripts items "id" = Return ids ->
  add_products_to_collection send self (collection_id self) ids st3
  = (Return added, st4) ->
  run_weekly_update send clock isoformat self st0
  = (Return (full_summary (Py.find entries "title" (PStr "Unknown"))
                          (Z.of_nat (List.length items)) added cleared
                          (stamp clock isoformat st4)),
     st4).
Proof.
  intros Hinfo Hne Hnew Hitems Hclear Hids Hadd.
  unfold run_weekly_update; rewrite bind_run, Hinfo.
  destruct entries as [|kv rest]; [contradiction|].
  cbn [Py.truthy negb Py.get].
  step.
  rewrite bind_run, Hnew.
  destruct items as [|p more]; [contradiction|].
  cbn [Py.truthy negb Py.iter Py.len].
  rewrite bind_run, Hclear.
  step.
  rewrite bind_run; unfold lift at 1; rewrite Hids.
  rewrite bind_run, Hadd.
  reflexivity.
Qed.

(** Every summary a run returns comes from one of the three paths. *)
Lemma run_inv self s (st0 st' : @state World) :
  run_weekly_update send clock isoformat self st0 = (Return s, st') ->
  (exists info,
      get_collection_info send self (collection_id self) st0 = (Return info, st') /\
      Py.truthy info = false /\
      s = failure_summary (stamp clock isoformat st'))
  \/
  (exists entries products st1,
      get_collection_info send self (collection_id self) st0
      = (Return (PDict entries), st1) /\
      entries <> [] /\
      get_new_products send clock isoformat self 7 st1 = (Return products, st') /\
      Py.truthy products = false /\
      s = empty_summary (stamp clock isoformat st'))
  \/
  (exists entries items ids cleared added st1 st2 st3,
      get_collection_info send self (collection_id self) st0
      = (Return (PDict entries), st1) /\
      entries <> [] /\
      get_new_products send clock isoformat self 7 st1
      = (Return (PList items), st2) /\
      items <> [] /\
      clear_collection send self (collection_id self) st2 = (Return cleared, st3) /\
      Py.subscripts items "id" = Return ids /\
      add_products_to_collection send self (collection_id self) ids st3
      = (Return added, st') /\
      s = full_summary (Py.find entries "title" (PStr "Unknown"))
                       (Z.of_nat (List.length items)) added cleared
                       (stamp clock isoformat st')).
Proof.
  intros Hrun.
  destruct (get_collection_info send self (collection_id self) st0)
    as [[info|e] st1] eqn:Hinfo.
  2:{ unfold run_weekly_update in Hrun; rewrite bind_run, Hinfo in Hrun.
      discriminate. }
  destruct (Py.truthy info) eqn:Htruthy.
  2:{ left; exists info.
      rewrite (run_failure _ _ _ _ Hinfo Htruthy) in Hrun.
      inversion Hrun; subst; auto. }
  right.
  destruct (Py.get info "title" (PStr "Unknown")) as [title|e] eqn:Htitle.
  2:{ unfold run_weekly_update in Hrun.
      rewrite bind_run, Hinfo, Htruthy in Hrun; cbn [negb] in Hrun.
      rewrite bind_run in Hrun; unfold lift at 1 in Hrun.
      rewrite Htitle in Hrun; discriminate. }
  assert (exists entries, info = PDict entries /\ entries <> []) as (entries & -> & Hne).
  { destruct info; try discriminate.
    exists entries; split; [reflexivity|].
    destruct entries; [discriminate|congruence]. }
  clear Htitle Htruthy.
  destruct (get_new_products send clock isoformat self 7 st1)
    as [[products|e] st2] eqn:Hnew.
  2:{ unfold run_weekly_update in Hrun; rewrite bind_run, Hinfo in Hrun.
      destruct entries as [|kv rest]; [contradiction|].
      cbn [Py.truthy negb Py.get] in Hrun.
      step_in Hrun.
      rewrite bind_run, Hnew in Hrun; discriminate. }
  destruct (Py.truthy products) eqn:Hproducts.
  2:{ left; exists entries, products, st1.
      rewrite (run_empty _ _ _ _ _ _ Hinfo Hne Hnew Hproducts) in Hrun.
      inversion Hrun; subst; auto. }
  right.
  pose proof Hrun as Hsummary.
  unfold run_weekly_update in Hrun; rewrite bind_run, Hinfo in Hrun.
  destruct entries as [|kv rest]; [contradiction|].
  cbn [Py.truthy negb Py.get] in Hrun.
  step_in Hrun.
  rewrite bind_run, Hnew, Hproducts in Hrun; cbn [negb] in Hrun.
  rewrite bind_run in Hrun.
  destruct (clear_collection send self (collection_id self) st2)
    as [[cleared|e] st3] eqn:Hclear; [|discriminate].
  rewrite bind_run in Hrun; unfold lift at 1 in Hrun.
  destruct (Py.iter products) as [items|e] eqn:Hiter; [|discriminate].
  rewrite bind_run in Hrun; unfold lift at 1 in Hrun.
  destruct (Py.subscripts items "id") as [ids|e] eqn:Hids; [|discriminate].
  rewrite bind_run in Hrun.
  destruct (add_products_to_collection send self (collection_id self) ids st3)
    as [[added|e] st4] eqn:Hadd; [|discriminate].
  pose proof (iterable_with_ids_is_list _ _ _ _ Hproducts Hiter Hids) as ->.
  assert (items <> []) as Hitems
      by (destruct items; [discriminate|congruence]).
  rewrite (run_full _ _ _ _ _ _ _ _ _ _ _ Hinfo Hne Hnew Hitems Hclear Hids Hadd)
    in Hsummary.
  inversion Hsummary; subst.
  exists (kv :: rest), items, ids, cleared, added, st1, st2, st3.
  auto 10.
Qed.

(** ** Loops that count every element *)

Lemma count_loop_bounds {A} (body : A -> M bool) xs acc n (st st' : @state World) :
  count_loop body xs acc st = (Return n, st') ->
  acc <= n <= acc + Z.of_nat (List.length xs).
Proof.
  revert acc st; induction xs as [|x rest IH]; intros acc st H.
  - inversion H; subst; simpl; lia.
  - cbn [count_loop] in H; rewrite bind_run in H.
    destruct (body x st) as [[ok|e] st1]; [|discriminate].
    apply IH in H; cbn [List.length]; rewrite Nat2Z.inj_succ.
    destruct ok; lia.
Qed.


(** ** The log only grows *)









End ClientFacts.

(** ** The remote store *)

Lemma remote_get_keeps_members faults rq params s :
  rq_method rq = GET params ->
  Remote.members (snd (Remote.send faults rq s)) = Remote.members s.
Proof.
  intros Hget; unfold Remote.send; rewrite Hget.
  destruct (faults (Remote.served s)); [reflexivity|].
  destruct (rq_resource rq); reflexivity.
Qed.

Lemma remote_delete_applied faults self cid pid s body :
  fst (Remote.send faults (remove_request self cid pid) s) = Return body ->
  exists z, pid = PInt z /\
            Remote.members (snd (Remote.send faults (remove_request self cid pid) s))
            = Remote.remove_member z (Remote.members s).
Proof.
  unfold Remote.send; simpl.
  destruct (faults (Remote.served s)); simpl; [discriminate|].
  destruct pid; simpl; try discriminate.
  intros _; exists z; auto.
Qed.

Lemma remote_post_applied faults self cid pid s body :
  fst (Remote.send faults (add_request self cid pid) s) = Return body ->
  exists z, pid = PInt z /\
            Remote.members (snd (Remote.send faults (add_request self cid pid) s))
            = Remote.add_member z (Remote.members s).
Proof.
  unfold Remote.send; simpl.
  destruct (faults (Remote.served s)); simpl; [discriminate|].
  destruct pid; simpl; try discriminate.
  intros _; exists z; auto.
Qed.


Lemma In_remove_member z ms m :
  In m (Remote.remove_member z ms) <-> In m ms /\ m <> z.
Proof.
  unfold Remote.remove_member; rewrite filter_In.
  destruct (Z.eqb_spec m z); simpl; intuition congruence.
Qed.

Lemma In_add_member z ms m :
  In m (Remote.add_member z ms) <-> In m ms \/ m = z.
Proof.
  unfold Remote.add_member.
  destruct (existsb (Z.eqb z) ms) eqn:E.
  - apply existsb_exists in E; destruct E as (x & Hx & Heq).
    apply Z.eqb_eq in Heq; subst x.
    split; [auto|]; intros [H|H]; subst; auto.
  - rewrite in_app_iff; simpl; intuition.
Qed.

Lemma In_remove_all zs ms m :
  In m (Remote.remove_all zs ms) <-> In m ms /\ ~ In m zs.
Proof.
  unfold Remote.remove_all; revert ms; induction zs as [|z zs IH]; intros ms; simpl.
  - tauto.
  - rewrite IH, In_remove_member; intuition.
Qed.

Lemma In_add_all zs ms m :
  In m (Remote.add_all zs ms) <-> In m ms \/ In m zs.
Proof.
  unfold Remote.add_all; revert ms; induction zs as [|z zs IH]; intros ms; simpl.
  - tauto.
  - rewrite IH, In_add_member; intuition.
Qed.

Lemma remove_all_self ms : Remote.remove_all ms ms = [].
Proof.
  destruct (Remote.remove_all ms ms) as [|m rest] eqn:E; [reflexivity|].
  assert (In m (Remote.remove_all ms ms)) as H by (rewrite E; left; reflexivity).
  apply In_remove_all in H; tauto.
Qed.


Lemma member_doc_products ms :
  unwrap_products (Remote.member_doc ms)
  = Return (PList (map (fun m => PDict [("id", PInt m)]) ms)).
Proof. reflexivity. Qed.

Lemma member_ids ms :
  Py.subscripts (map (fun m => PDict [("id", PInt m)]) ms) "id"
  = Return (map PInt ms).
Proof.
  induction ms as [|m ms IH]; [reflexivity|].
  cbn [map Py.subscripts]; rewrite IH; reflexivity.
Qed.

(** ** Stores that obey the rules *)


Lemma remote_store_rules faults : store_rules (Remote.send faults).
Proof.
  constructor.
  - intros rq params s m Hget.
    rewrite (remote_get_keeps_members faults rq params s Hget); tauto.
  - intros self cid pid s body Hbody.
    destruct (remote_delete_applied _ _ _ _ _ _ Hbody) as (z & -> & Hz).
    exists z; split; [reflexivity|].
    intros m; rewrite Hz; apply In_remove_member.
  - intros self cid pid s body Hbody.
    destruct (remote_post_applied _ _ _ _ _ _ Hbody) as (z & -> & Hz).
    exists z; split; [reflexivity|].
    intros m; rewrite Hz; apply In_add_member.
Qed.

Lemma paged_store_rules limit faults : store_rules (Paged.send limit faults).
Proof.
  constructor.
  - intros rq params s m Hget; unfold Paged.send; rewrite Hget.
    destruct (rq_resource rq) eqn:Hres;
      try (rewrite (remote_get_keeps_members faults rq params s Hget); tauto).
    destruct (faults (Remote.served s)); simpl; tauto.
  - intros self cid pid s body.
    exact (answered_removal_applied _ (remote_store_rules faults)
                                    self cid pid s body).
  - intros self cid pid s body.
    exact (answered_addition_applied _ (remote_store_rules faults)
                                     self cid pid s body).
Qed.

Section StoreRules.

Variable send : request -> Remote.store -> result pyval * Remote.store.
Hypothesis rules : store_rules send.







End StoreRules.

(** ** Convergence of the collection (C1) *)




(** The listing must be complete.  Against a store whose member listing is
    one page of a single member, the listing is answered, the summary has
    [success = True], [collection_cleared = True] and as many products added
    as found, and still a former member stays in the collection. *)
Example success_despite_partial_listing :
  exists st',
    run_weekly_update (Paged.send 1 Remote.no_faults) Remote.clock
                      Fixture.isoformat Fixture.self
                      (Remote.start (Fixture.shop [201; 202] [101]))
    = (Return (full_summary (PStr "New this week") 1 1 true
                            (PStr "2025-09-08T00:00:00")), st')
    /\ Remote.members (world st') = [202; 101]
    /\ Forall (fun ev => succeeded ev = true) (trace st').
Proof.
  eexists; split; [vm_compute; reflexivity|]; split; [reflexivity|].
  repeat constructor.
Qed.

(** The other conditions of the amended statement are needed as well.  A
    failed addition leaves a listed product out while [success] is [True]. *)
Example success_despite_failed_addition :
  exists st',
    Fixture.run (Remote.fault_at 4) (Fixture.shop [201] [101; 102])
    = (Return (full_summary (PStr "New this week") 2 1 true
                            (PStr "2025-09-08T00:00:00")), st')
    /\ Remote.members (world st') = [102].
Proof. eexists; split; [vm_compute; reflexivity|reflexivity]. Qed.

(** A failed member listing reads as an empty collection: the summary
    reports a cleared collection and every product added, and the old
    members are still there. *)
Example success_despite_failed_listing :
  exists st',
    Fixture.run (Remote.fault_at 2) (Fixture.shop [201; 202] [101])
    = (Return (full_summary (PStr "New this week") 1 1 true
                            (PStr "2025-09-08T00:00:00")), st')
    /\ Remote.members (world st') = [201; 202; 101].
Proof. eexists; split; [vm_compute; reflexivity|reflexivity]. Qed.

(** ** Fatal metadata failure (C2) *)

(** C2: when the metadata fetch returns [None], the run ends at once with the
    failure summary, whose error text is 'Could not fetch collection
    information'; the only call the run issued is the metadata request, so
    no listing, removal or addition was attempted. *)
Theorem C2_missing_metadata_is_fatal :
  forall (World : Type) (send : request -> World -> result pyval * World)
         clock isoformat self (st0 st1 : @state World),
    get_collection_info send self (collection_id self) st0 = (Return PNone, st1) ->
    run_weekly_update send clock isoformat self st0
    = (Return [("success", PBool false);
               ("error", PStr "Could not fetch collection information");
               ("timestamp", stamp clock isoformat st1)],
       st1)
    /\ trace st1
       = (trace st0
          ++ [mkEvent (info_request self (collection_id self))
                      (answer send (info_request self (collection_id self)) st0)])%list.
Proof.
  intros World send clock isoformat self st0 st1 Hinfo; split.
  - apply (run_failure send clock isoformat self PNone st0 st1 Hinfo); reflexivity.
  - rewrite get_collection_info_eq in Hinfo; inversion Hinfo; reflexivity.
Qed.

Lemma C2_missing_metadata_witness :
  Fixture.run (Remote.fault_at 0) (Fixture.shop [201] [101])
  = (Return [("success", PBool false);
             ("error", PStr "Could not fetch collection information");
             ("timestamp", PStr "2025-09-08T00:00:00")],
     snd (get_collection_info (Remote.send (Remote.fault_at 0)) Fixture.self "42"
                              (Remote.start (Fixture.shop [201] [101])))).
Proof.
  refine (proj1 (C2_missing_metadata_is_fatal
                   Remote.store (Remote.send (Remote.fault_at 0)) Remote.clock
                   Fixture.isoformat Fixture.self
                   (Remote.start (Fixture.shop [201] [101]))
                   (snd (get_collection_info
                           (Remote.send (Remote.fault_at 0)) Fixture.self "42"
                           (Remote.start (Fixture.shop [201] [101]))))
                   _)).
  vm_compute; reflexivity.
Defined.

(** ** No-op on an empty window (C3) *)

(** C3: when the metadata fetch returns a collection record and the
    recent-products listing returns the empty list, the run ends with the
    success summary (0 found, 0 added, 'No new products to add'); the run
    issued exactly the two GET requests, hence no member listing, removal or
    addition, and the membership of the collection is unchanged. *)
Theorem C3_empty_window_is_a_noop :
  forall faults isoformat self entries (st0 st1 st2 : @state Remote.store),
    get_collection_info (Remote.send faults) self (collection_id self) st0
    = (Return (PDict entries), st1) ->
    entries <> [] ->
    get_new_products (Remote.send faults) Remote.clock isoformat self 7 st1
    = (Return (PList []), st2) ->
    run_weekly_update (Remote.send faults) Remote.clock isoformat self st0
    = (Return [("success", PBool true);
               ("products_found", PInt 0);
               ("products_added", PInt 0);
               ("message", PStr "No new products to add");
               ("timestamp", stamp Remote.clock isoformat st2)],
       st2)
    /\ (exists ev1 ev2,
           trace st2 = (trace st0 ++ [ev1; ev2])%list /\
           ev_request ev1 = info_request self (collection_id self) /\
           ev_request ev2
           = products_request self (cutoff Remote.clock isoformat 7 st1))
    /\ Remote.members (world st2) = Remote.members (world st0).
Proof.
  intros faults isoformat self entries st0 st1 st2 Hinfo Hne Hnew.
  split; [|split].
  - apply (run_empty _ _ _ _ _ _ _ _ _ Hinfo Hne Hnew); reflexivity.
  - rewrite get_collection_info_eq in Hinfo; inversion Hinfo as [[Hr Hst1]].
    rewrite get_new_products_eq in Hnew; inversion Hnew as [[Hr' Hst2]].
    clear Hinfo Hnew Hr Hr'; subst st1 st2.
    do 2 eexists; split; [|split].
    + cbn [logged trace]; rewrite <- app_assoc; reflexivity.
    + reflexivity.
    + reflexivity.
  - rewrite get_collection_info_eq in Hinfo; inversion Hinfo as [[Hr Hst1]].
    rewrite get_new_products_eq in Hnew; inversion Hnew as [[Hr' Hst2]].
    clear Hinfo Hnew Hr Hr'; subst st1 st2; cbn [logged world].
    rewrite remote_get_keeps_members with (params := products_params _)
      by reflexivity.
    apply remote_get_keeps_members with (params := []); reflexivity.
Qed.

Lemma C3_empty_window_witness :
  Fixture.run Remote.no_faults (Fixture.shop [201] [])
  = (Return [("success", PBool true);
             ("products_found", PInt 0);
             ("products_added", PInt 0);
             ("message", PStr "No new products to add");
             ("timestamp", PStr "2025-09-08T00:00:00")],
     snd (Fixture.run Remote.no_faults (Fixture.shop [201] [])))
  /\ Remote.members (world (snd (Fixture.run Remote.no_faults (Fixture.shop [201] []))))
     = [201].
Proof.
  destruct (C3_empty_window_is_a_noop
              Remote.no_faults Fixture.isoformat Fixture.self
              [("id", PInt 42); ("title", PStr "New this week")]
              (Remote.start (Fixture.shop [201] []))
              (snd (get_collection_info (Remote.send Remote.no_faults) Fixture.self
                                        "42" (Remote.start (Fixture.shop [201] []))))
              (snd (Fixture.run Remote.no_faults (Fixture.shop [201] []))))
    as (Hrun & _ & Hmembers).
  - vm_compute; reflexivity.
  - discriminate.
  - vm_compute; reflexivity.
  - split; [exact Hrun|exact Hmembers].
Defined.

(** The remote store raises nothing but what its schedule raises and its own
    HTTP errors. *)
Lemma remote_transport faults :
  (forall n e, faults n = Some e -> is_request_exception e = true) ->
  transport_errors_only (Remote.send faults).
Proof.
  intros Hfaults rq s e; unfold Remote.send.
  destruct (faults (Remote.served s)) as [e'|] eqn:Hf; simpl.
  - intros H; inversion H; subst; eauto.
  - destruct (rq_method rq) as [params| |json];
      destruct (rq_resource rq) as [|c|c|c pid]; simpl;
      try (intros H; inversion H; reflexivity).
    + destruct pid; simpl; intros H; inversion H; reflexivity.
    + destruct (Remote.posted_id json); simpl; intros H; inversion H; reflexivity.
Qed.

Lemma fault_at_transport k :
  transport_errors_only (Remote.send (Remote.fault_at k)).
Proof.
  apply remote_transport; intros n e; unfold Remote.fault_at.
  destruct (Nat.eqb n k); intros H; inversion H; reflexivity.
Qed.

Lemma no_faults_transport : transport_errors_only (Remote.send Remote.no_faults).
Proof. apply remote_transport; intros n e H; inversion H. Qed.

(** ** A partial clear does not block the populate pass (C4) *)

(** C4: let the run reach the clear pass with a non-empty member list of
    length M, each member carrying an identifier, under the error model of
    the client.  Then the run completes; after the member listing it issues
    one removal per member and then one addition per recent product; the
    summary's [collection_cleared] is the truth value of "the number of
    removals that succeeded equals M", whatever that number is, and its
    [success] flag is [True]. *)
Theorem C4_partial_clear_does_not_block_populate :
  forall (World : Type) (send : request -> World -> result pyval * World)
         clock isoformat self entries items ids members mids
         (st0 st1 st2 st3 : @state World),
    transport_errors_only send ->
    get_collection_info send self (collection_id self) st0
    = (Return (PDict entries), st1) ->
    entries <> [] ->
    get_new_products send clock isoformat self 7 st1 = (Return (PList items), st2) ->
    items <> [] ->
    Py.subscripts items "id" = Return ids ->
    get_collection_products send self (collection_id self) st2
    = (Return (PList members), st3) ->
    members <> [] ->
    Py.subscripts members "id" = Return mids ->
    exists dels posts summary st5,
      run_weekly_update send clock isoformat self st0 = (Return summary, st5) /\
      trace st5 = (trace st3 ++ dels ++ posts)%list /\
      map ev_request dels = map (remove_request self (collection_id self)) mids /\
      map ev_request posts = map (add_request self (collection_id self)) ids /\
      Py.lookup summary "collection_cleared"
      = Some (PBool (count_succeeded dels =? Z.of_nat (List.length members))) /\
      Py.lookup summary "success" = Some (PBool true).
Proof.
  intros World send clock isoformat self entries items ids members mids
         st0 st1 st2 st3 Htransport Hinfo Hentries Hnew Hitems Hids
         Hlist Hmembers Hmids.
  destruct (clear_collection_log send Htransport _ _ _ _ _ _ Hlist Hmembers Hmids)
    as (dels & st4 & Hclear & Htrace4 & Hdels).
  destruct (add_products_to_collection_log send Htransport self
                                           (collection_id self) ids st4)
    as (posts & st5 & Hadd & Htrace5 & Hposts).
  exists dels, posts; do 2 eexists; split.
  - apply (run_full send clock isoformat _ _ _ _ _ _ _ _ _ _ _
                    Hinfo Hentries Hnew Hitems Hclear Hids Hadd).
  - repeat split; auto.
    rewrite Htrace5, Htrace4, app_assoc; reflexivity.
Qed.

Lemma C4_partial_clear_witness :
  exists dels posts summary st5,
    Fixture.run (Remote.fault_at 4) (Fixture.shop [201; 202] [101])
    = (Return summary, st5) /\
    trace st5
    = (trace (snd (get_collection_products
                     (Remote.send (Remote.fault_at 4)) Fixture.self "42"
                     (snd (get_new_products
                             (Remote.send (Remote.fault_at 4)) Remote.clock
                             Fixture.isoformat Fixture.self 7
                             (snd (get_collection_info
                                     (Remote.send (Remote.fault_at 4))
                                     Fixture.self "42"
                                     (Remote.start
                                        (Fixture.shop [201; 202] [101]))))))))
       ++ dels ++ posts)%list /\
    map ev_request dels
    = map (remove_request Fixture.self "42") [PInt 201; PInt 202] /\
    map ev_request posts = map (add_request Fixture.self "42") [PInt 101] /\
    Py.lookup summary "collection_cleared"
    = Some (PBool (count_succeeded dels =? 2)) /\
    Py.lookup summary "success" = Some (PBool true).
Proof.
  eapply (C4_partial_clear_does_not_block_populate
            Remote.store (Remote.send (Remote.fault_at 4)) Remote.clock
            Fixture.isoformat Fixture.self
            [("id", PInt 42); ("title", PStr "New this week")]
            [Fixture.product 101] [PInt 101]
            [PDict [("id", PInt 201)]; PDict [("id", PInt 202)]]
            [PInt 201; PInt 202]
            (Remote.start (Fixture.shop [201; 202] [101]))).
  - apply fault_at_transport.
  - vm_compute; reflexivity.
  - discriminate.
  - vm_compute; reflexivity.
  - discriminate.
  - reflexivity.
  - vm_compute; reflexivity.
  - discriminate.
  - reflexivity.
Defined.

(** ** Counting the additions (C5) *)

(** C5: let the run reach the populate pass (the clear pass returned), under
    the error model of the client.  Then the run completes, the calls it
    issues after the clear pass are exactly the additions, [products_added]
    is the number of those calls that succeeded and [products_found] is the
    length of the recent-products list; the former never exceeds the latter.
    It can be strictly smaller: with the recent products [101; 101] and the
    first addition failing, 2 are found and 1 is added. *)
Theorem C5_products_added_counts_successful_adds :
  (forall (World : Type) (send : request -> World -> result pyval * World)
          clock isoformat self entries items ids cleared
          (st0 st1 st2 st3 : @state World),
      transport_errors_only send ->
      get_collection_info send self (collection_id self) st0
      = (Return (PDict entries), st1) ->
      entries <> [] ->
      get_new_products send clock isoformat self 7 st1
      = (Return (PList items), st2) ->
      items <> [] ->
      clear_collection send self (collection_id self) st2 = (Return cleared, st3) ->
      Py.subscripts items "id" = Return ids ->
      exists posts summary st4,
        run_weekly_update send clock isoformat self st0 = (Return summary, st4) /\
        trace st4 = (trace st3 ++ posts)%list /\
        map ev_request posts = map (add_request self (collection_id self)) ids /\
        Py.lookup summary "products_added" = Some (PInt (count_succeeded posts)) /\
        Py.lookup summary "products_found"
        = Some (PInt (Z.of_nat (List.length items))) /\
        count_succeeded posts <= Z.of_nat (List.length items))
  /\
  (exists summary st',
      Fixture.run (Remote.fault_at 3) (Fixture.shop [] [101; 101])
      = (Return summary, st') /\
      Py.lookup summary "products_added" = Some (PInt 1) /\
      Py.lookup summary "products_found" = Some (PInt 2)).
Proof.
  split.
  - intros World send clock isoformat self entries items ids cleared
           st0 st1 st2 st3 Htransport Hinfo Hentries Hnew Hitems Hclear Hids.
    destruct (add_products_to_collection_log send Htransport self
                                             (collection_id self) ids st3)
      as (posts & st4 & Hadd & Htrace & Hposts).
    exists posts; do 2 eexists; split.
    + apply (run_full send clock isoformat _ _ _ _ _ _ _ _ _ _ _
                      Hinfo Hentries Hnew Hitems Hclear Hids Hadd).
    + repeat split; auto.
      pose proof (count_succeeded_bounds posts) as Hbound.
      rewrite <- (subscripts_length _ _ _ Hids).
      rewrite <- (length_map (add_request self (collection_id self)) ids).
      rewrite <- Hposts, length_map; lia.
  - do 2 eexists; split; [vm_compute; reflexivity|]; split; reflexivity.
Qed.

Lemma C5_products_added_witness :
  exists posts summary st4,
    Fixture.run (Remote.fault_at 3) (Fixture.shop [] [101; 101])
    = (Return summary, st4) /\
    trace st4
    = (trace (snd (clear_collection
                     (Remote.send (Remote.fault_at 3)) Fixture.self "42"
                     (snd (get_new_products
                             (Remote.send (Remote.fault_at 3)) Remote.clock
                             Fixture.isoformat Fixture.self 7
                             (snd (get_collection_info
                                     (Remote.send (Remote.fault_at 3))
                                     Fixture.self "42"
                                     (Remote.start
                                        (Fixture.shop [] [101; 101]))))))))
       ++ posts)%list /\
    map ev_request posts
    = map (add_request Fixture.self "42") [PInt 101; PInt 101] /\
    Py.lookup summary "products_added" = Some (PInt (count_succeeded posts)) /\
    Py.lookup summary "products_found" = Some (PInt 2) /\
    count_succeeded posts <= 2.
Proof.
  eapply (proj1 C5_products_added_counts_successful_adds
                Remote.store (Remote.send (Remote.fault_at 3)) Remote.clock
                Fixture.isoformat Fixture.self
                [("id", PInt 42); ("title", PStr "New this week")]
                [Fixture.product 101; Fixture.product 101]
                [PInt 101; PInt 101] true
                (Remote.start (Fixture.shop [] [101; 101]))).
  - apply fault_at_transport.
  - vm_compute; reflexivity.
  - discriminate.
  - vm_compute; reflexivity.
  - discriminate.
  - vm_compute; reflexivity.
  - reflexivity.
Defined.

(** ** Order and repetition of the additions (C9) *)

(** C9: let the run reach the populate pass with the recent-products list
    [items], under the error model of the client.  Then the run completes
    and the calls it issues after the clear pass are the additions of the
    identifiers of [items], one per element and in the order of the list:
    the i-th of these calls adds the identifier of the i-th product.  Nothing
    is sorted or merged: an identifier found at two positions of the list is
    added by the two calls at those positions. *)
Theorem C9_additions_follow_the_listing :
  forall (World : Type) (send : request -> World -> result pyval * World)
         clock isoformat self entries items ids cleared
         (st0 st1 st2 st3 : @state World),
    transport_errors_only send ->
    get_collection_info send self (collection_id self) st0
    = (Return (PDict entries), st1) ->
    entries <> [] ->
    get_new_products send clock isoformat self 7 st1 = (Return (PList items), st2) ->
    items <> [] ->
    clear_collection send self (collection_id self) st2 = (Return cleared, st3) ->
    Py.subscripts items "id" = Return ids ->
    exists posts summary st4,
      run_weekly_update send clock isoformat self st0 = (Return summary, st4) /\
      trace st4 = (trace st3 ++ posts)%list /\
      List.length posts = List.length items /\
      (forall i product,
          nth_error items i = Some product ->
          exists pid,
            Py.subscript product "id" = Return pid /\
            option_map ev_request (nth_error posts i)
            = Some (add_request self (collection_id self) pid)) /\
      (forall i j pid,
          i <> j ->
          nth_error ids i = Some pid ->
          nth_error ids j = Some pid ->
          option_map ev_request (nth_error posts i)
          = Some (add_request self (collection_id self) pid) /\
          option_map ev_request (nth_error posts j)
          = Some (add_request self (collection_id self) pid)).
Proof.
  intros World send clock isoformat self entries items ids cleared
         st0 st1 st2 st3 Htransport Hinfo Hentries Hnew Hitems Hclear Hids.
  destruct (add_products_to_collection_log send Htransport self
                                           (collection_id self) ids st3)
    as (posts & st4 & Hadd & Htrace & Hposts).
  assert (forall i pid,
             nth_error ids i = Some pid ->
             option_map ev_request (nth_error posts i)
             = Some (add_request self (collection_id self) pid)) as Hnth.
  { intros i pid Hi.
    rewrite <- nth_error_map, Hposts, nth_error_map, Hi; reflexivity. }
  exists posts; do 2 eexists; split; [|split; [|split; [|split]]].
  - apply (run_full send clock isoformat _ _ _ _ _ _ _ _ _ _ _
                    Hinfo Hentries Hnew Hitems Hclear Hids Hadd).
  - exact Htrace.
  - rewrite <- (subscripts_length _ _ _ Hids).
    rewrite <- (length_map ev_request posts), Hposts, length_map; reflexivity.
  - intros i product Hi.
    destruct (Forall2_nth_left _ _ _ _ _ (subscripts_Forall2 _ _ _ Hids) Hi)
      as (pid & Hpid & Hsub).
    exists pid; split; [exact Hsub|apply Hnth; exact Hpid].
  - intros i j pid _ Hi Hj; split; apply Hnth; assumption.
Qed.

Lemma C9_additions_witness :
  exists posts summary st4,
    Fixture.run Remote.no_faults (Fixture.shop [201] [103; 101; 103])
    = (Return summary, st4) /\
    List.length posts = 3%nat /\
    option_map ev_request (nth_error posts 0)
    = Some (add_request Fixture.self "42" (PInt 103)) /\
    option_map ev_request (nth_error posts 2)
    = Some (add_request Fixture.self "42" (PInt 103)).
Proof.
  destruct (C9_additions_follow_the_listing
              Remote.store (Remote.send Remote.no_faults) Remote.clock
              Fixture.isoformat Fixture.self
              [("id", PInt 42); ("title", PStr "New this week")]
              [Fixture.product 103; Fixture.product 101; Fixture.product 103]
              [PInt 103; PInt 101; PInt 103] true
              (Remote.start (Fixture.shop [201] [103; 101; 103]))
              (snd (get_collection_info
                      (Remote.send Remote.no_faults) Fixture.self "42"
                      (Remote.start (Fixture.shop [201] [103; 101; 103]))))
              (snd (get_new_products
                      (Remote.send Remote.no_faults) Remote.clock
                      Fixture.isoformat Fixture.self 7
                      (snd (get_collection_info
                              (Remote.send Remote.no_faults) Fixture.self "42"
                              (Remote.start (Fixture.shop [201] [103; 101; 103]))))))
              (snd (clear_collection
                      (Remote.send Remote.no_faults) Fixture.self "42"
                      (snd (get_new_products
                              (Remote.send Remote.no_faults) Remote.clock
                              Fixture.isoformat Fixture.self 7
                              (snd (get_collection_info
                                      (Remote.send Remote.no_faults) Fixture.self "42"
                                      (Remote.start
                                         (Fixture.shop [201] [103; 101; 103])))))))))
    as (posts & summary & st4 & Hrun & _ & Hlen & _ & Hdup).
  - apply no_faults_transport.
  - vm_compute; reflexivity.
  - discriminate.
  - vm_compute; reflexivity.
  - discriminate.
  - vm_compute; reflexivity.
  - reflexivity.
  - exists posts, summary, st4; split; [exact Hrun|].
    split; [exact Hlen|].
    apply (Hdup 0%nat 2%nat (PInt 103)); [discriminate|reflexivity|reflexivity].
Defined.

(** ** An empty member listing (C10) *)

Lemma additions_are_not_removals self cid ids posts :
  map ev_request posts = map (add_request self cid) ids ->
  existsb is_delete posts = false.
Proof.
  revert ids; induction posts as [|ev posts IH]; intros [|pid ids] H;
    try discriminate; [reflexivity|].
  inversion H as [[Hev Hrest]]; simpl.
  unfold is_delete at 1; rewrite Hev; simpl; eauto.
Qed.

(** C10: let the run reach the clear pass, under the error model of the
    client, and let the member listing return the empty list.  Then the
    clear pass returns [True] after that single call; the run completes, the
    calls it issues from the clear pass on are the listing and the additions,
    none of them a removal, and [collection_cleared] is [True].  The listing
    returns the empty list in particular when its call fails with a
    transport or HTTP error; in that case members can remain: with 201 and
    202 in the collection and a failing listing, the flag is [True] and the
    collection ends as [201; 202; 101]. *)
Theorem C10_empty_listing_counts_as_cleared :
  (forall (World : Type) (send : request -> World -> result pyval * World)
          clock isoformat self entries items ids
          (st0 st1 st2 st3 : @state World),
      transport_errors_only send ->
      get_collection_info send self (collection_id self) st0
      = (Return (PDict entries), st1) ->
      entries <> [] ->
      get_new_products send clock isoformat self 7 st1
      = (Return (PList items), st2) ->
      items <> [] ->
      Py.subscripts items "id" = Return ids ->
      get_collection_products send self (collection_id self) st2
      = (Return (PList []), st3) ->
      clear_collection send self (collection_id self) st2 = (Return true, st3) /\
      exists listing posts summary st4,
        trace st3 = (trace st2 ++ [listing])%list /\
        ev_request listing = members_request self (collection_id self) /\
        run_weekly_update send clock isoformat self st0 = (Return summary, st4) /\
        trace st4 = (trace st2 ++ listing :: posts)%list /\
        existsb is_delete (listing :: posts) = false /\
        Py.lookup summary "collection_cleared" = Some (PBool true))
  /\
  (forall (World : Type) (send : request -> World -> result pyval * World)
          self cid (st : @state World) e,
      answer send (members_request self cid) st = Raise e ->
      is_request_exception e = true ->
      get_collection_products send self cid st
      = (Return (PList []), logged send (members_request self cid) st))
  /\
  (exists summary st',
      Fixture.run (Remote.fault_at 2) (Fixture.shop [201; 202] [101])
      = (Return summary, st') /\
      Py.lookup summary "collection_cleared" = Some (PBool true) /\
      Remote.members (world st') = [201; 202; 101]).
Proof.
  split; [|split].
  - intros World send clock isoformat self entries items ids st0 st1 st2 st3
           Htransport Hinfo Hentries Hnew Hitems Hids Hlist.
    pose proof (clear_collection_empty send _ _ _ _ _ Hlist eq_refl) as Hclear.
    split; [exact Hclear|].
    destruct (add_products_to_collection_log send Htransport self
                                             (collection_id self) ids st3)
      as (posts & st4 & Hadd & Htrace & Hposts).
    rewrite get_collection_products_eq in Hlist; inversion Hlist as [[Hr Hst3]].
    eexists; exists posts; do 2 eexists; split; [|split; [|split; [|split; [|split]]]].
    + reflexivity.
    + reflexivity.
    + apply (run_full send clock isoformat _ _ _ _ _ _ _ _ _ _ _
                      Hinfo Hentries Hnew Hitems Hclear Hids Hadd).
    + rewrite Htrace, <- Hst3; cbn [logged trace].
      rewrite <- app_assoc; reflexivity.
    + cbn [existsb]; rewrite (additions_are_not_removals _ _ _ _ Hposts).
      reflexivity.
    + reflexivity.
  - intros World send self cid st e Hanswer He.
    rewrite get_collection_products_eq, Hanswer; simpl; rewrite He; reflexivity.
  - do 2 eexists; split; [vm_compute; reflexivity|]; split; reflexivity.
Qed.

Lemma C10_empty_listing_witness :
  clear_collection
    (Remote.send (Remote.fault_at 2)) Fixture.self "42"
    (snd (get_new_products
            (Remote.send (Remote.fault_at 2)) Remote.clock
            Fixture.isoformat Fixture.self 7
            (snd (get_collection_info
                    (Remote.send (Remote.fault_at 2)) Fixture.self "42"
                    (Remote.start (Fixture.shop [201; 202] [101]))))))
  = (Return true,
     snd (get_collection_products
            (Remote.send (Remote.fault_at 2)) Fixture.self "42"
            (snd (get_new_products
                    (Remote.send (Remote.fault_at 2)) Remote.clock
                    Fixture.isoformat Fixture.self 7
                    (snd (get_collection_info
                            (Remote.send (Remote.fault_at 2)) Fixture.self "42"
                            (Remote.start (Fixture.shop [201; 202] [101])))))))).
Proof.
  eapply (proj1 C10_empty_listing_counts_as_cleared
                Remote.store (Remote.send (Remote.fault_at 2)) Remote.clock
                Fixture.isoformat Fixture.self
                [("id", PInt 42); ("title", PStr "New this week")]
                [Fixture.product 101] [PInt 101]
                (Remote.start (Fixture.shop [201; 202] [101]))).
  - apply fault_at_transport.
  - vm_compute; reflexivity.
  - discriminate.
  - vm_compute; reflexivity.
  - discriminate.
  - reflexivity.
  - vm_compute; reflexivity.
Defined.

(** ** Transport errors are swallowed (C7) *)

Lemma scripted_transport : transport_errors_only Cases.scripted.
Proof.
  intros rq script e; unfold Cases.scripted.
  destruct script as [|[body|] rest]; simpl; intros H; inversion H; reflexivity.
Qed.

(** C7, as stated, fails in its last clause: in an environment whose calls
    raise nothing but transport errors, a client operation can still raise.
    The metadata call is answered with a JSON list; [collection_data.get]
    raises [AttributeError], which [except RequestException] does not
    catch. *)
Lemma C7_counterexample :
  transport_errors_only Cases.scripted /\
  ~ (forall st : @state (list (option pyval)),
        exists info,
          fst (get_collection_info Cases.scripted Fixture.self "42" st)
          = Return info).
Proof.
  split; [exact scripted_transport|].
  intros Hnever.
  destruct (Hnever (mkState Cases.list_body [])) as [info Hinfo].
  vm_compute in Hinfo; discriminate.
Qed.

Lemma unwrap_products_raises body e :
  unwrap_products body = Raise e -> e = AttributeError \/ e = TypeError.
Proof.
  unfold unwrap_products.
  destruct body; simpl; try solve [intros H; inversion H; auto].
  destruct (Py.find entries "products" (PList [])); simpl;
    intros H; inversion H; auto.
Qed.

Lemma and_then_raises {A B} (r : result A) (f : A -> result B) fallback e :
  degrade fallback (and_then r f) = Raise e ->
  (exists a, r = Return a /\ f a = Raise e) \/
  (r = Raise e /\ is_request_exception e = false).
Proof.
  destruct r as [a|e']; simpl.
  - destruct (f a) as [b|e''] eqn:Hf; simpl; [discriminate|].
    destruct (is_request_exception e''); [discriminate|].
    intros H; inversion H; subst; left; exists a; auto.
  - destruct (is_request_exception e') eqn:He; [discriminate|].
    intros H; inversion H; subst; right; auto.
Qed.

(** C7, amended.  When the call of a client operation raises an exception of
    the [requests] family, the operation does not raise: the two listings
    (the recent products with the seven-day lookback of the workflow) return
    the empty list, the removal and the addition return [False] and the
    metadata fetch returns [None].  In an environment whose calls raise
    nothing else, the removal and the addition never raise, and a listing or
    the metadata fetch raises only when its call was answered with a body
    that cannot be unwrapped, the exception then being [AttributeError] or
    [TypeError]. *)
Theorem C7_transport_errors_degrade :
  forall (World : Type) (send : request -> World -> result pyval * World)
         clock isoformat self cid pid (st : @state World),
    ((forall e,
         answer send (products_request self (cutoff clock isoformat 7 st)) st
         = Raise e ->
         is_request_exception e = true ->
         fst (get_new_products send clock isoformat self 7 st)
         = Return (PList []))
     /\ (forall e,
            answer send (members_request self cid) st = Raise e ->
            is_request_exception e = true ->
            fst (get_collection_products send self cid st) = Return (PList []))
     /\ (forall e,
            answer send (remove_request self cid pid) st = Raise e ->
            is_request_exception e = true ->
            fst (remove_product_from_collection send self cid pid st)
            = Return false)
     /\ (forall e,
            answer send (add_request self cid pid) st = Raise e ->
            is_request_exception e = true ->
            fst (add_product_to_collection send self cid pid st) = Return false)
     /\ (forall e,
            answer send (info_request self cid) st = Raise e ->
            is_request_exception e = true ->
            fst (get_collection_info send self cid st) = Return PNone))
    /\
    (transport_errors_only send ->
     (exists ok,
         fst (remove_product_from_collection send self cid pid st) = Return ok)
     /\ (exists ok,
            fst (add_product_to_collection send self cid pid st) = Return ok)
     /\ (forall e,
            fst (get_new_products send clock isoformat self 7 st) = Raise e ->
            (e = AttributeError \/ e = TypeError) /\
            exists body,
              answer send (products_request self (cutoff clock isoformat 7 st)) st
              = Return body /\
              unwrap_products body = Raise e)
     /\ (forall e,
            fst (get_collection_products send self cid st) = Raise e ->
            (e = AttributeError \/ e = TypeError) /\
            exists body,
              answer send (members_request self cid) st = Return body /\
              unwrap_products body = Raise e)
     /\ (forall e,
            fst (get_collection_info send self cid st) = Raise e ->
            e = AttributeError /\
            exists body,
              answer send (info_request self cid) st = Return body /\
              Py.get body "collection" PNone = Raise e)).
Proof.
  intros World send clock isoformat self cid pid st; split.
  - repeat split; intros e Hanswer He.
    + rewrite get_new_products_eq, Hanswer; simpl; rewrite He; reflexivity.
    + rewrite get_collection_products_eq, Hanswer; simpl; rewrite He; reflexivity.
    + rewrite remove_product_from_collection_eq, Hanswer; simpl; rewrite He.
      reflexivity.
    + rewrite add_product_to_collection_eq, Hanswer; simpl; rewrite He.
      reflexivity.
    + rewrite get_collection_info_eq, Hanswer; simpl; rewrite He; reflexivity.
  - intros Htransport.
    assert (forall rq e, answer send rq st = Raise e ->
                         is_request_exception e = false -> False) as Hno.
    { intros rq e Hanswer He; unfold answer in Hanswer.
      rewrite (Htransport _ _ _ Hanswer) in He; discriminate. }
    split; [|split; [|split; [|split]]].
    + rewrite remove_product_from_collection_eq.
      rewrite (flag_call_succeeded send Htransport); cbn [fst]; eauto.
    + rewrite add_product_to_collection_eq.
      rewrite (flag_call_succeeded send Htransport); cbn [fst]; eauto.
    + intros e; rewrite get_new_products_eq; cbn [fst]; intros Hraise.
      apply and_then_raises in Hraise.
      destruct Hraise as [(body & Hanswer & Hbody)|[Hanswer He]];
        [|exfalso; eapply Hno; eauto].
      split; [eapply unwrap_products_raises; eauto|eauto].
    + intros e; rewrite get_collection_products_eq; cbn [fst]; intros Hraise.
      apply and_then_raises in Hraise.
      destruct Hraise as [(body & Hanswer & Hbody)|[Hanswer He]];
        [|exfalso; eapply Hno; eauto].
      split; [eapply unwrap_products_raises; eauto|eauto].
    + intros e; rewrite get_collection_info_eq; cbn [fst]; intros Hraise.
      apply and_then_raises in Hraise.
      destruct Hraise as [(body & Hanswer & Hbody)|[Hanswer He]];
        [|exfalso; eapply Hno; eauto].
      split; [|eauto].
      destruct body; simpl in Hbody; inversion Hbody; reflexivity.
Qed.

Lemma C7_transport_errors_witness :
  (fst (get_new_products (Remote.send (Remote.fault_at 0)) Remote.clock
                         Fixture.isoformat Fixture.self 7
                         (Remote.start (Fixture.shop [201] [101])))
   = Return (PList [])
   /\ fst (remove_product_from_collection
             (Remote.send (Remote.fault_at 0)) Fixture.self "42" (PInt 201)
             (Remote.start (Fixture.shop [201] [101])))
      = Return false)
  /\ exists ok,
       fst (add_product_to_collection
              Cases.scripted Fixture.self "42" (PInt 101)
              (mkState Cases.list_body []))
       = Return ok.
Proof.
  split.
  - destruct (proj1 (C7_transport_errors_degrade
                       Remote.store (Remote.send (Remote.fault_at 0)) Remote.clock
                       Fixture.isoformat Fixture.self "42" (PInt 201)
                       (Remote.start (Fixture.shop [201] [101]))))
      as (Hnew & _ & Hremove & _ & _).
    split.
    + apply (Hnew (RequestException "500 Server Error")); reflexivity.
    + apply (Hremove (RequestException "500 Server Error")); reflexivity.
  - apply (proj2 (C7_transport_errors_degrade
                    (list (option pyval)) Cases.scripted Cases.noon
                    Fixture.isoformat Fixture.self "42" (PInt 101)
                    (mkState Cases.list_body []))
                 scripted_transport).
Defined.

(** Exceptions outside the [requests] family are not caught by the client:
    a body that is not a dictionary makes the metadata fetch raise. *)
Lemma other_exceptions_propagate {World : Type}
      (send : request -> World -> result pyval * World) self cid
      (st : @state World) items :
  answer send (info_request self cid) st = Return (PList items) ->
  fst (get_collection_info send self cid st) = Raise AttributeError.
Proof.
  intros Hanswer; rewrite get_collection_info_eq, Hanswer; reflexivity.
Qed.

(** ** Configuration (C6) *)

Lemma env_truthy_true v :
  Py.env_truthy v = true -> exists s, v = Some s /\ s <> "".
Proof.
  destruct v as [s|]; simpl; [|discriminate].
  intros H; exists s; split; [reflexivity|].
  intros ->; discriminate.
Qed.

(** C6: if one of the four variables is unset or empty, construction raises
    the configuration error, and [main] returns exit code 1 without touching
    the state: no call is issued.  If all four are set and non-empty,
    construction succeeds and the base URL is
    [https://<shop>.myshopify.com/admin/api/2023-10]. *)
Theorem C6_configuration_is_checked_first :
  forall getenv : string -> option string,
    ((exists name,
         In name required_variables /\
         (getenv name = None \/ getenv name = Some "")) ->
     __init__ getenv = Raise (ValueError missing_env_message) /\
     forall (World : Type) (send : request -> World -> result pyval * World)
            clock isoformat (st : @state World),
       main send clock isoformat getenv st = (1, st))
    /\
    (forall k p s c,
        getenv "SHOPIFY_API_KEY" = Some k -> k <> "" ->
        getenv "SHOPIFY_PASSWORD" = Some p -> p <> "" ->
        getenv "SHOPIFY_SHOP_NAME" = Some s -> s <> "" ->
        getenv "COLLECTION_ID" = Some c -> c <> "" ->
        __init__ getenv
        = Return {| api_key := k;
                    password := p;
                    shop_name := s;
                    collection_id := c;
                    base_url := "https://" ++ s ++ ".myshopify.com/admin/api/2023-10";
                    auth := (k, p) |}).
Proof.
  intros getenv; split.
  - intros (name & Hin & Hmissing).
    assert (__init__ getenv = Raise (ValueError missing_env_message)) as Hinit.
    { unfold __init__; cbv zeta.
      destruct (forallb Py.env_truthy _) eqn:Hall; [|reflexivity].
      exfalso.
      rewrite forallb_forall in Hall.
      assert (Py.env_truthy (getenv name) = true) as Htruthy.
      { apply Hall; unfold required_variables in Hin; simpl in Hin |- *.
        intuition (subst; auto). }
      apply env_truthy_true in Htruthy; destruct Htruthy as (v & Hv & Hne).
      destruct Hmissing as [Hnone|Hblank]; congruence. }
    split; [exact Hinit|].
    intros World send clock isoformat st; unfold main; rewrite Hinit; reflexivity.
  - intros k p s c Hk Hk' Hp Hp' Hs Hs' Hc Hc'.
    unfold __init__; rewrite Hk, Hp, Hs, Hc; cbv zeta.
    cbn [forallb Py.env_truthy].
    apply String.eqb_neq in Hk', Hp', Hs', Hc'.
    rewrite Hk', Hp', Hs', Hc'; reflexivity.
Qed.

Lemma C6_configuration_witness :
  (__init__ Fixture.getenv_blank_shop = Raise (ValueError missing_env_message)
   /\ main (Remote.send Remote.no_faults) Remote.clock Fixture.isoformat
           Fixture.getenv_blank_shop (Remote.start (Fixture.shop [201] [101]))
      = (1, Remote.start (Fixture.shop [201] [101])))
  /\ __init__ Fixture.getenv = Return Fixture.self.
Proof.
  split.
  - destruct (proj1 (C6_configuration_is_checked_first Fixture.getenv_blank_shop))
      as (Hinit & Hmain).
    + exists "SHOPIFY_SHOP_NAME"; split; [simpl; auto|right; reflexivity].
    + split; [exact Hinit|apply Hmain].
  - apply (proj2 (C6_configuration_is_checked_first Fixture.getenv)
                 "key" "secret" "demo" "42");
      solve [reflexivity | discriminate].
Defined.

(** ** The fields of a summary (C8) *)

(** C8, as stated, fails: the summary of a run whose metadata fetch failed
    has no collection title (nor counts, nor cleared flag). *)
Lemma C8_counterexample :
  ~ (forall summary st',
        Fixture.run (Remote.fault_at 0) (Fixture.shop [201] [101])
        = (Return summary, st') ->
        summary_complete summary).
Proof.
  intros Hall.
  assert (Fixture.run (Remote.fault_at 0) (Fixture.shop [201] [101])
          = (Return (failure_summary (PStr "2025-09-08T00:00:00")),
             snd (Fixture.run (Remote.fault_at 0) (Fixture.shop [201] [101]))))
    as Hrun by (vm_compute; reflexivity).
  apply Hall in Hrun.
  apply (Hrun "collection_name"); [simpl; auto|reflexivity].
Qed.

(** The summary of the empty-window path lacks the title and the cleared
    flag as well. *)
Lemma empty_summary_incomplete ts : ~ summary_complete (empty_summary ts).
Proof.
  intros H; apply (H "collection_cleared"); [simpl; auto 10|reflexivity].
Qed.

Lemma full_summary_complete title found added cleared ts :
  summary_complete (full_summary title found added cleared ts).
Proof.
  intros key Hin; simpl in Hin.
  repeat (destruct Hin as [<-|Hin]; [discriminate|]); contradiction.
Qed.

(** C8, amended: every summary a run returns has a success flag and the time
    stamp of its completion.  On a metadata failure its fields are exactly
    success, error and timestamp; on an empty recent-products result exactly
    success, products_found, products_added, message and timestamp; on full
    completion exactly success, collection_name, products_found,
    products_added, collection_cleared and timestamp. *)
Theorem C8_summary_fields_by_path :
  forall (World : Type) (send : request -> World -> result pyval * World)
         clock isoformat self summary (st0 st' : @state World),
    run_weekly_update send clock isoformat self st0 = (Return summary, st') ->
    (exists flag, Py.lookup summary "success" = Some (PBool flag)) /\
    Py.lookup summary "timestamp" = Some (stamp clock isoformat st') /\
    ((exists info,
         get_collection_info send self (collection_id self) st0
         = (Return info, st') /\
         Py.truthy info = false /\
         map fst summary = ["success"; "error"; "timestamp"])
     \/
     (exists info products st1,
         get_collection_info send self (collection_id self) st0
         = (Return info, st1) /\
         Py.truthy info = true /\
         get_new_products send clock isoformat self 7 st1
         = (Return products, st') /\
         Py.truthy products = false /\
         map fst summary
         = ["success"; "products_found"; "products_added"; "message";
            "timestamp"])
     \/
     (exists info products st1 st2,
         get_collection_info send self (collection_id self) st0
         = (Return info, st1) /\
         Py.truthy info = true /\
         get_new_products send clock isoformat self 7 st1
         = (Return products, st2) /\
         Py.truthy products = true /\
         map fst summary = summary_keys /\
         summary_complete summary)).
Proof.
  intros World send clock isoformat self summary st0 st' Hrun.
  apply run_inv in Hrun.
  destruct Hrun as [(info & Hinfo & Hfalsy & ->)
                   |[(entries & products & st1 & Hinfo & Hne & Hnew & Hfalsy & ->)
                    |(entries & items & ids & cleared & added & st1 & st2 & st3
                      & Hinfo & Hne & Hnew & Hitems & _ & _ & _ & ->)]].
  - split; [exists false; reflexivity|]; split; [reflexivity|].
    left; exists info; auto.
  - split; [exists true; reflexivity|]; split; [reflexivity|].
    right; left; exists (PDict entries), products, st1; repeat split; auto.
    destruct entries; [contradiction|reflexivity].
  - split; [exists true; reflexivity|]; split; [reflexivity|].
    right; right; exists (PDict entries), (PList items), st1, st2.
    repeat split; auto.
    + destruct entries; [contradiction|reflexivity].
    + destruct items; [contradiction|reflexivity].
    + apply full_summary_complete.
Qed.

Lemma C8_summary_fields_witness :
  (exists flag,
      Py.lookup (failure_summary (PStr "2025-09-08T00:00:00")) "success"
      = Some (PBool flag))
  /\ Py.lookup (failure_summary (PStr "2025-09-08T00:00:00")) "timestamp"
     = Some (stamp Remote.clock Fixture.isoformat
                   (snd (Fixture.run (Remote.fault_at 0)
                                     (Fixture.shop [201] [101])))).
Proof.
  destruct (C8_summary_fields_by_path
              Remote.store (Remote.send (Remote.fault_at 0)) Remote.clock
              Fixture.isoformat Fixture.self
              (failure_summary (PStr "2025-09-08T00:00:00"))
              (Remote.start (Fixture.shop [201] [101]))
              (snd (Fixture.run (Remote.fault_at 0) (Fixture.shop [201] [101]))))
    as (Hflag & Hstamp & _).
  - vm_compute; reflexivity.
  - split; [exact Hflag|exact Hstamp].
Defined.

(** ** The scenarios of the specification *)

(** Scenario A: both removals and the three additions succeed. *)
Example scenario_A :
  exists st',
    Fixture.run Remote.no_faults (Fixture.shop [201; 202] [101; 102; 103])
    = (Return (full_summary (PStr "New this week") 3 3 true
                            (PStr "2025-09-08T00:00:00")), st')
    /\ Remote.members (world st') = [101; 102; 103].
Proof. eexists; split; [vm_compute; reflexivity|reflexivity]. Qed.

(** Scenario B: nothing recent, the collection keeps its member. *)
Example scenario_B :
  exists st',
    Fixture.run Remote.no_faults (Fixture.shop [201] [])
    = (Return (empty_summary (PStr "2025-09-08T00:00:00")), st')
    /\ Remote.members (world st') = [201].
Proof. eexists; split; [vm_compute; reflexivity|reflexivity]. Qed.

(** Scenario C: the metadata fetch fails and is the only call. *)
Example scenario_C :
  exists st',
    Fixture.run (Remote.fault_at 0) (Fixture.shop [201] [101])
    = (Return (failure_summary (PStr "2025-09-08T00:00:00")), st')
    /\ List.length (trace st') = 1%nat.
Proof. eexists; split; [vm_compute; reflexivity|reflexivity]. Qed.

(** Scenario D: the removal of 202 fails, 101 is added all the same. *)
Example scenario_D :
  exists st',
    Fixture.run (Remote.fault_at 4) (Fixture.shop [201; 202] [101])
    = (Return (full_summary (PStr "New this week") 1 1 false
                            (PStr "2025-09-08T00:00:00")), st')
    /\ Remote.members (world st') = [202; 101].
Proof. eexists; split; [vm_compute; reflexivity|reflexivity]. Qed.

(** * Further properties of the workflow *)

(** ** Relations kept by every call *)

Section Respects.

Context {World : Type}.
Variable send : request -> World -> result pyval * World.
Variable clock : World -> Z.
Variable isoformat : Z -> string.

Variable R : @state World -> @state World -> Prop.
Hypothesis R_refl : forall st, R st st.
Hypothesis R_trans : forall st st1 st2, R st st1 -> R st1 st2 -> R st st2.

Variable self : ShopifyCollectionAutomation.
Hypothesis R_call : forall rq st, R st (logged send rq st).

Lemma respects_ret {A} (a : A) : respects R (@ret World A a).
Proof. intros st r st' H; inversion H; subst; apply R_refl. Qed.

Lemma respects_lift {A} (r : result A) : respects R (@lift World A r).
Proof. intros st r' st' H; inversion H; subst; apply R_refl. Qed.

Lemma respects_now : respects R (now clock).
Proof. intros st r st' H; inversion H; subst; apply R_refl. Qed.

Lemma respects_bind {A B} (m : @M World A) (k : A -> @M World B) :
  respects R m -> (forall a, respects R (k a)) -> respects R (bind m k).
Proof.
  intros Hm Hk st r st' H; rewrite bind_run in H.
  destruct (m st) as [[a|e] st1] eqn:Hrun.
  - apply R_trans with st1; [eapply Hm; eauto|eapply Hk; eauto].
  - inversion H; subst; eapply Hm; eauto.
Qed.

Lemma respects_try {A} (body : @M World A) (handler : exn -> @M World A) :
  respects R body -> (forall e, respects R (handler e)) ->
  respects R (try_except body handler).
Proof.
  intros Hbody Hhandler st r st' H; unfold try_except in H.
  destruct (body st) as [[a|e] st1] eqn:Hrun.
  - inversion H; subst; eapply Hbody; eauto.
  - destruct (is_request_exception e).
    + apply R_trans with st1; [eapply Hbody; eauto|eapply Hhandler; eauto].
    + inversion H; subst; eapply Hbody; eauto.
Qed.

Lemma respects_http rq : respects R (http send rq).
Proof.
  intros st r st' H; rewrite http_eq in H; inversion H; subst.
  apply R_call.
Qed.

Lemma respects_count_loop {A} (body : A -> @M World bool) xs acc :
  (forall x, respects R (body x)) -> respects R (count_loop body xs acc).
Proof.
  intros Hbody; revert acc; induction xs as [|x rest IH]; intros acc.
  - apply respects_ret.
  - cbn [count_loop]; apply respects_bind; [apply Hbody|intros ok; apply IH].
Qed.

Ltac respected :=
  repeat first
         [ apply respects_ret
         | apply respects_lift
         | apply respects_now
         | apply respects_http
         | apply respects_bind; [|intros ?]
         | apply respects_try; [|intros ?]
         | apply respects_count_loop; intros ?
         | match goal with
           | |- respects _ (if ?b then _ else _) => destruct b
           end ].

Lemma get_collection_info_respects :
  respects R (get_collection_info send self (collection_id self)).
Proof. unfold get_collection_info; respected. Qed.

Lemma get_new_products_respects days_back :
  respects R (get_new_products send clock isoformat self days_back).
Proof. unfold get_new_products; respected. Qed.

Lemma get_collection_products_respects :
  respects R (get_collection_products send self (collection_id self)).
Proof. unfold get_collection_products; respected. Qed.

Lemma remove_product_from_collection_respects pid :
  respects R (remove_product_from_collection send self (collection_id self) pid).
Proof. unfold remove_product_from_collection; respected. Qed.

Lemma add_product_to_collection_respects pid :
  respects R (add_product_to_collection send self (collection_id self) pid).
Proof. unfold add_product_to_collection; respected. Qed.

Lemma clear_collection_respects :
  respects R (clear_collection send self (collection_id self)).
Proof.
  unfold clear_collection.
  apply respects_bind; [apply get_collection_products_respects|intros products].
  respected.
Qed.

Lemma add_products_to_collection_respects ids :
  respects R (add_products_to_collection send self (collection_id self) ids).
Proof.
  unfold add_products_to_collection; apply respects_count_loop.
  apply add_product_to_collection_respects.
Qed.

Lemma run_weekly_update_respects :
  respects R (run_weekly_update send clock isoformat self).
Proof.
  unfold run_weekly_update, timestamp.
  apply respects_bind; [apply get_collection_info_respects|intros info].
  destruct (negb (Py.truthy info)); [respected|].
  apply respects_bind; [apply respects_lift|intros _].
  apply respects_bind; [apply get_new_products_respects|intros products].
  destruct (negb (Py.truthy products)); [respected|].
  apply respects_bind; [apply clear_collection_respects|intros cleared].
  apply respects_bind; [apply respects_lift|intros items].
  apply respects_bind; [apply respects_lift|intros ids].
  apply respects_bind; [apply add_products_to_collection_respects|intros added].
  respected.
Qed.

End Respects.

(** ** What a run calls *)

(** X2: the calls of a complete run, in order.  Under the error model of the
    client, when the metadata is a record, the recent products are a
    non-empty list with identifiers [ids] and the members listed are a list
    with identifiers [mids], the run returns a summary and has issued exactly
    the metadata request, the product listing with a seven-day bound, the
    member listing, one removal per listed member and one addition per recent
    product: 3 + M + N calls. *)
Theorem run_call_sequence :
  forall (World : Type) (send : request -> World -> result pyval * World)
         clock isoformat self entries items ids members mids
         (st0 st1 st2 st3 : @state World),
    transport_errors_only send ->
    get_collection_info send self (collection_id self) st0
    = (Return (PDict entries), st1) ->
    entries <> [] ->
    get_new_products send clock isoformat self 7 st1 = (Return (PList items), st2) ->
    items <> [] ->
    Py.subscripts items "id" = Return ids ->
    get_collection_products send self (collection_id self) st2
    = (Return (PList members), st3) ->
    Py.subscripts members "id" = Return mids ->
    exists evs summary st',
      run_weekly_update send clock isoformat self st0 = (Return summary, st') /\
      trace st' = (trace st0 ++ evs)%list /\
      map ev_request evs
      = (info_request self (collection_id self)
           :: products_request self (cutoff clock isoformat 7 st1)
           :: members_request self (collection_id self)
           :: map (remove_request self (collection_id self)) mids
           ++ map (add_request self (collection_id self)) ids)%list /\
      List.length evs
      = (3 + List.length members + List.length items)%nat.
Proof.
  intros World send clock isoformat self entries items ids members mids
         st0 st1 st2 st3 Htransport Hinfo Hentries Hnew Hitems Hids
         Hlist Hmids.
  assert (exists dels cleared st4,
             clear_collection send self (collection_id self) st2
             = (Return cleared, st4) /\
             trace st4 = (trace st3 ++ dels)%list /\
             map ev_request dels
             = map (remove_request self (collection_id self)) mids)
    as (dels & cleared & st4 & Hclear & Htrace4 & Hdels).
  { destruct members as [|m members'].
    - inversion Hmids; subst.
      exists [], true, st3; split; [|split].
      + apply (clear_collection_empty send _ _ _ _ _ Hlist eq_refl).
      + rewrite app_nil_r; reflexivity.
      + reflexivity.
    - destruct (clear_collection_log send Htransport _ _ _ _ _ _ Hlist
                                     ltac:(discriminate) Hmids)
        as (dels & st4 & Hclear & Htrace4 & Hdels).
      eauto 10. }
  destruct (add_products_to_collection_log send Htransport self
                                           (collection_id self) ids st4)
    as (posts & st5 & Hadd & Htrace5 & Hposts).
  pose proof (run_full send clock isoformat _ _ _ _ _ _ _ _ _ _ _
                       Hinfo Hentries Hnew Hitems Hclear Hids Hadd) as Hrun.
  rewrite get_collection_info_eq in Hinfo; inversion Hinfo as [[Hr1 Hst1]].
  pose proof Hnew as Hnew'.
  rewrite get_new_products_eq in Hnew'; inversion Hnew' as [[Hr2 Hst2]].
  rewrite get_collection_products_eq in Hlist; inversion Hlist as [[Hr3 Hst3]].
  set (rq1 := info_request self (collection_id self)) in *.
  set (rq2 := products_request self (cutoff clock isoformat 7 st1)) in *.
  set (rq3 := members_request self (collection_id self)) in *.
  exists (mkEvent rq1 (answer send rq1 st0)
            :: mkEvent rq2 (answer send rq2 st1)
            :: mkEvent rq3 (answer send rq3 st2)
            :: dels ++ posts)%list.
  do 2 eexists.
  split; [exact Hrun|]; split; [|split].
  - rewrite Htrace5, Htrace4, <- Hst3; cbn [logged trace].
    rewrite <- Hst2; cbn [logged trace].
    rewrite <- Hst1; cbn [logged trace].
    rewrite <- !app_assoc; reflexivity.
  - cbn [map ev_request]; rewrite map_app, Hdels, Hposts.
    subst rq2; rewrite <- ?Hst1; reflexivity.
  - cbn [List.length]; rewrite length_app.
    rewrite <- (length_map ev_request dels), Hdels, length_map.
    rewrite <- (length_map ev_request posts), Hposts, length_map.
    rewrite (subscripts_length _ _ _ Hmids), (subscripts_length _ _ _ Hids).
    reflexivity.
Qed.

(** ** Runs against a store without faults *)

Lemma remote_send_keeps_docs faults rq s :
  Remote.collection_doc (snd (Remote.send faults rq s)) = Remote.collection_doc s /\
  Remote.products_doc (snd (Remote.send faults rq s)) = Remote.products_doc s.
Proof.
  unfold Remote.send.
  destruct (faults (Remote.served s)); [split; reflexivity|].
  destruct (rq_method rq) as [params| |json];
    destruct (rq_resource rq) as [|c|c|c pid]; try (split; reflexivity).
  - destruct pid; split; reflexivity.
  - destruct (Remote.posted_id json); split; reflexivity.
Qed.

Lemma same_docs_refl st : same_docs st st.
Proof. split; reflexivity. Qed.

Lemma same_docs_trans st st1 st2 :
  same_docs st st1 -> same_docs st1 st2 -> same_docs st st2.
Proof. intros [H1 H2] [H3 H4]; split; congruence. Qed.

Lemma paged_send_keeps_docs limit faults rq s :
  Remote.collection_doc (snd (Paged.send limit faults rq s))
  = Remote.collection_doc s /\
  Remote.products_doc (snd (Paged.send limit faults rq s)) = Remote.products_doc s.
Proof.
  unfold Paged.send.
  destruct (rq_method rq) as [params| |json];
    destruct (rq_resource rq) as [|c|c|c pid];
    try apply remote_send_keeps_docs.
  destruct (faults (Remote.served s)); split; reflexivity.
Qed.

(** A run leaves the documents of the store alone, whatever fails. *)
Lemma run_keeps_docs limit faults isoformat self (st0 : @state Remote.store) :
  same_docs st0 (snd (run_weekly_update (Paged.send limit faults) Remote.clock
                                        isoformat self st0)).
Proof.
  apply (run_weekly_update_respects
           (Paged.send limit faults) Remote.clock isoformat same_docs
           same_docs_refl same_docs_trans self
           (fun rq st => paged_send_keeps_docs limit faults rq (world st))
           st0
           (fst (run_weekly_update (Paged.send limit faults) Remote.clock
                                   isoformat self st0))).
  apply surjective_pairing.
Qed.

Lemma nofault_remove_loop limit self cid ms acc (st : @state Remote.store) :
  exists st',
    count_loop (remove_product_from_collection
                  (Paged.send limit Remote.no_faults) self cid)
               (map PInt ms) acc st
    = (Return (acc + Z.of_nat (List.length ms)), st') /\
    Remote.members (world st') = Remote.remove_all ms (Remote.members (world st)).
Proof.
  revert acc st; induction ms as [|m ms IH]; intros acc st.
  - exists st; split; [|reflexivity].
    cbn; unfold ret; rewrite Z.add_0_r; reflexivity.
  - cbn [map count_loop]; rewrite bind_run, remove_product_from_collection_eq.
    change (answer (Paged.send limit Remote.no_faults)
                   (remove_request self cid (PInt m)) st)
      with (@Return pyval (PDict [])).
    cbn [and_then degrade].
    destruct (IH (acc + 1)
                 (logged (Paged.send limit Remote.no_faults)
                         (remove_request self cid (PInt m)) st))
      as (st' & Hloop & Hmembers).
    exists st'; split.
    + rewrite Hloop; cbn [List.length]; rewrite Nat2Z.inj_succ.
      do 2 f_equal; lia.
    + rewrite Hmembers; reflexivity.
Qed.

Lemma nofault_add_loop limit self cid zs acc (st : @state Remote.store) :
  exists st',
    count_loop (add_product_to_collection
                  (Paged.send limit Remote.no_faults) self cid)
               (map PInt zs) acc st
    = (Return (acc + Z.of_nat (List.length zs)), st') /\
    Remote.members (world st') = Remote.add_all zs (Remote.members (world st)).
Proof.
  revert acc st; induction zs as [|z zs IH]; intros acc st.
  - exists st; split; [|reflexivity].
    cbn; unfold ret; rewrite Z.add_0_r; reflexivity.
  - cbn [map count_loop]; rewrite bind_run, add_product_to_collection_eq.
    change (answer (Paged.send limit Remote.no_faults)
                   (add_request self cid (PInt z)) st)
      with (@Return pyval (PDict [])).
    cbn [and_then degrade].
    destruct (IH (acc + 1)
                 (logged (Paged.send limit Remote.no_faults)
                         (add_request self cid (PInt z)) st))
      as (st' & Hloop & Hmembers).
    exists st'; split.
    + rewrite Hloop; cbn [List.length]; rewrite Nat2Z.inj_succ.
      do 2 f_equal; lia.
    + rewrite Hmembers; reflexivity.
Qed.

Lemma nofault_clear limit self cid (st : @state Remote.store) :
  (List.length (Remote.members (world st)) <= limit)%nat ->
  exists st3,
    clear_collection (Paged.send limit Remote.no_faults) self cid st
    = (Return true, st3) /\
    Remote.members (world st3) = [].
Proof.
  intros Hfit.
  set (send := Paged.send limit Remote.no_faults).
  pose proof (get_collection_products_eq send self cid st) as Hlist.
  change (answer send (members_request self cid) st)
    with (Return (Remote.member_doc (firstn limit (Remote.members (world st)))))
    in Hlist.
  rewrite (firstn_all2 _ Hfit) in Hlist.
  cbn [and_then] in Hlist; rewrite member_doc_products in Hlist.
  cbn [degrade] in Hlist.
  set (st1 := logged send (members_request self cid) st) in *.
  assert (Remote.members (world st1) = Remote.members (world st)) as Hkeep
      by reflexivity.
  destruct (Remote.members (world st)) as [|m ms] eqn:Hms.
  - exists st1; split; [|exact Hkeep].
    apply (clear_collection_empty _ _ _ _ _ _ Hlist eq_refl).
  - destruct (nofault_remove_loop limit self cid (m :: ms) 0 st1)
      as (st3 & Hloop & Hmembers).
    exists st3; split.
    + unfold clear_collection; rewrite bind_run, Hlist.
      cbn [map Py.truthy negb Py.iter].
      step.
      rewrite bind_run.
      rewrite (count_loop_subscripts _ _ _ _ _ _ (member_ids (m :: ms))).
      change (fun product_id : pyval =>
                remove_product_from_collection send self cid product_id)
        with (remove_product_from_collection send self cid).
      unfold send at 1; rewrite Hloop.
      rewrite bind_run; unfold lift at 1; cbn [Py.len]; unfold ret.
      rewrite Z.add_0_l, <- (length_map (fun m0 => PDict [("id", PInt m0)]) (m :: ms)).
      cbn [map]; rewrite Z.eqb_refl; reflexivity.
    + rewrite Hmembers, Hkeep; apply remove_all_self.
Qed.

Lemma nofault_run :
  forall limit isoformat self entries items zs (st0 : @state Remote.store),
    (List.length (Remote.members (world st0)) <= limit)%nat ->
    Py.get (Remote.collection_doc (world st0)) "collection" PNone
    = Return (PDict entries) ->
    entries <> [] ->
    unwrap_products (Remote.products_doc (world st0)) = Return (PList items) ->
    items <> [] ->
    Py.subscripts items "id" = Return (map PInt zs) ->
    exists st',
      run_weekly_update (Paged.send limit Remote.no_faults) Remote.clock
                        isoformat self st0
      = (Return (full_summary (Py.find entries "title" (PStr "Unknown"))
                              (Z.of_nat (List.length zs))
                              (Z.of_nat (List.length zs)) true
                              (stamp Remote.clock isoformat st')),
         st') /\
      Remote.members (world st') = Remote.add_all zs [].
Proof.
  intros limit isoformat self entries items zs st0 Hfit Hdoc Hentries Hproducts
         Hitems Hids.
  set (send := Paged.send limit Remote.no_faults).
  pose proof (get_collection_info_eq send self (collection_id self) st0) as Hinfo.
  change (answer send (info_request self (collection_id self)) st0)
    with (Return (Remote.collection_doc (world st0))) in Hinfo.
  cbn [and_then] in Hinfo; rewrite Hdoc in Hinfo; cbn [degrade] in Hinfo.
  set (st1 := logged send (info_request self (collection_id self)) st0) in *.
  pose proof (get_new_products_eq send Remote.clock isoformat self 7 st1) as Hnew.
  change (answer send (products_request self (cutoff Remote.clock isoformat 7 st1)) st1)
    with (Return (Remote.products_doc (world st0))) in Hnew.
  cbn [and_then] in Hnew; rewrite Hproducts in Hnew; cbn [degrade] in Hnew.
  set (st2 := logged send (products_request self (cutoff Remote.clock isoformat 7 st1))
                     st1) in *.
  assert (Remote.members (world st2) = Remote.members (world st0)) as Hsame
      by reflexivity.
  rewrite <- Hsame in Hfit.
  destruct (nofault_clear limit self (collection_id self) st2 Hfit)
    as (st3 & Hclear & Hempty).
  destruct (nofault_add_loop limit self (collection_id self) zs 0 st3)
    as (st' & Hadd & Hmembers).
  rewrite Z.add_0_l in Hadd.
  exists st'; split.
  - rewrite (run_full send Remote.clock isoformat _ _ _ _ _ _ _ _ _ _ _
                      Hinfo Hentries Hnew Hitems Hclear Hids Hadd).
    rewrite <- (subscripts_length _ _ _ Hids), length_map; reflexivity.
  - rewrite Hmembers, Hempty; reflexivity.
Qed.

Lemma NoDup_add_member z ms : NoDup ms -> NoDup (Remote.add_member z ms).
Proof.
  intros Hms; unfold Remote.add_member.
  destruct (existsb (Z.eqb z) ms) eqn:E; [exact Hms|].
  assert (~ In z ms) as Hfresh.
  { intros Hin.
    assert (existsb (Z.eqb z) ms = true) as Htrue
        by (apply existsb_exists; exists z; split; [exact Hin|apply Z.eqb_refl]).
    congruence. }
  clear E; induction Hms as [|m ms Hm Hms IH]; simpl.
  - constructor; [intros []|constructor].
  - constructor.
    + rewrite in_app_iff; simpl; intros [H|[H|[]]]; [auto|].
      apply Hfresh; left; symmetry; exact H.
    + apply IH; intros H; apply Hfresh; right; exact H.
Qed.

Lemma NoDup_add_all zs ms : NoDup ms -> NoDup (Remote.add_all zs ms).
Proof.
  unfold Remote.add_all; revert ms; induction zs as [|z zs IH]; intros ms Hms.
  - exact Hms.
  - simpl; apply IH, NoDup_add_member, Hms.
Qed.

Lemma length_add_member z ms :
  (List.length (Remote.add_member z ms) <= S (List.length ms))%nat.
Proof.
  unfold Remote.add_member; destruct (existsb (Z.eqb z) ms); [lia|].
  rewrite length_app; simpl; lia.
Qed.

Lemma length_add_all zs ms :
  (List.length (Remote.add_all zs ms) <= List.length zs + List.length ms)%nat.
Proof.
  unfold Remote.add_all; revert ms; induction zs as [|z zs IH]; intros ms; simpl.
  - lia.
  - specialize (IH (Remote.add_member z ms)).
    pose proof (length_add_member z ms); lia.
Qed.

(** X3: a run converges against a store that applies every call, provided
    the collection fits the page of the member listing.  The store lets
    every call through; its member listing returns the first [limit] members
    (one page, as the single un-paginated request of the client gets), a
    removal deletes the identifier from the membership and an addition
    inserts it unless it is there.  When the collection holds at most
    [limit] members and the store serves a collection record and a non-empty
    list of products whose identifiers are the integers [zs], the run
    returns the full summary with N found, N added and
    [collection_cleared = True], and the collection ends with exactly the
    members [zs], each once. *)
Theorem fault_free_run_converges :
  forall limit isoformat self entries items zs (st0 : @state Remote.store),
    (List.length (Remote.members (world st0)) <= limit)%nat ->
    Py.get (Remote.collection_doc (world st0)) "collection" PNone
    = Return (PDict entries) ->
    entries <> [] ->
    unwrap_products (Remote.products_doc (world st0)) = Return (PList items) ->
    items <> [] ->
    Py.subscripts items "id" = Return (map PInt zs) ->
    exists st',
      run_weekly_update (Paged.send limit Remote.no_faults) Remote.clock
                        isoformat self st0
      = (Return (full_summary (Py.find entries "title" (PStr "Unknown"))
                              (Z.of_nat (List.length zs))
                              (Z.of_nat (List.length zs)) true
                              (stamp Remote.clock isoformat st')),
         st') /\
      Remote.members (world st') = Remote.add_all zs [] /\
      NoDup (Remote.members (world st')) /\
      (forall z, In z (Remote.members (world st')) <-> In z zs).
Proof.
  intros limit isoformat self entries items zs st0 Hfit Hdoc Hentries Hproducts
         Hitems Hids.
  destruct (nofault_run limit isoformat self entries items zs st0
                        Hfit Hdoc Hentries Hproducts Hitems Hids)
    as (st' & Hrun & Hmembers).
  exists st'; split; [exact Hrun|]; split; [exact Hmembers|]; split.
  - rewrite Hmembers; apply NoDup_add_all; constructor.
  - intros z; rewrite Hmembers, In_add_all; simpl; tauto.
Qed.

(** X4: against the store of X3 the workflow is idempotent, provided the
    collection fits the page of the member listing before each run.  When
    the collection holds at most [limit] members and at most [limit]
    products are listed, a second run, started where the first one ended,
    returns the same counts and leaves the membership as the first run left
    it. *)
Theorem fault_free_run_is_idempotent :
  forall limit isoformat self entries items zs (st0 : @state Remote.store),
    (List.length (Remote.members (world st0)) <= limit)%nat ->
    (List.length zs <= limit)%nat ->
    Py.get (Remote.collection_doc (world st0)) "collection" PNone
    = Return (PDict entries) ->
    entries <> [] ->
    unwrap_products (Remote.products_doc (world st0)) = Return (PList items) ->
    items <> [] ->
    Py.subscripts items "id" = Return (map PInt zs) ->
    exists first second st' st'',
      run_weekly_update (Paged.send limit Remote.no_faults) Remote.clock
                        isoformat self st0 = (Return first, st') /\
      run_weekly_update (Paged.send limit Remote.no_faults) Remote.clock
                        isoformat self st' = (Return second, st'') /\
      Remote.members (world st'') = Remote.members (world st') /\
      Py.lookup second "products_found" = Py.lookup first "products_found" /\
      Py.lookup second "products_added" = Py.lookup first "products_added" /\
      Py.lookup second "collection_cleared" = Some (PBool true).
Proof.
  intros limit isoformat self entries items zs st0 Hfit Hpage Hdoc Hentries
         Hproducts Hitems Hids.
  destruct (nofault_run limit isoformat self entries items zs st0
                        Hfit Hdoc Hentries Hproducts Hitems Hids)
    as (st' & Hfirst & Hmembers).
  pose proof (run_keeps_docs limit Remote.no_faults isoformat self st0) as [Hc Hp].
  rewrite Hfirst in Hc, Hp; cbn [snd] in Hc, Hp.
  rewrite <- Hc in Hdoc; rewrite <- Hp in Hproducts.
  assert (List.length (Remote.members (world st')) <= limit)%nat as Hfit'.
  { rewrite Hmembers; pose proof (length_add_all zs []); simpl in *; lia. }
  destruct (nofault_run limit isoformat self entries items zs st'
                        Hfit' Hdoc Hentries Hproducts Hitems Hids)
    as (st'' & Hsecond & Hmembers').
  do 2 eexists; exists st', st''.
  split; [exact Hfirst|]; split; [exact Hsecond|].
  repeat split; congruence.
Qed.

(** Without the bound both fail: against a page of one member, with 201 and
    202 in the collection, the first run leaves [202; 101] and a second run
    changes the membership again, to [101]. *)
Example one_page_is_not_idempotent :
  exists first st' st'',
    run_weekly_update (Paged.send 1 Remote.no_faults) Remote.clock
                      Fixture.isoformat Fixture.self
                      (Remote.start (Fixture.shop [201; 202] [101]))
    = (Return first, st') /\
    Remote.members (world st') = [202; 101] /\
    snd (run_weekly_update (Paged.send 1 Remote.no_faults) Remote.clock
                           Fixture.isoformat Fixture.self st') = st'' /\
    Remote.members (world st'') = [101].
Proof.
  do 3 eexists; split; [vm_compute; reflexivity|]; split; [reflexivity|].
  split; reflexivity.
Qed.

(** ** The exit code *)



(** ** A store that rejects every write *)




(** ** Malformed documents *)

Lemma subscript_raises v key e :
  Py.subscript v key = Raise e -> e = KeyError key \/ e = TypeError.
Proof.
  destruct v; simpl; try solve [intros H; inversion H; auto].
  destruct (Py.lookup entries key); intros H; inversion H; auto.
Qed.

Lemma subscripts_raises items key e :
  Py.subscripts items key = Raise e -> e = KeyError key \/ e = TypeError.
Proof.
  induction items as [|x rest IH]; simpl; [discriminate|].
  destruct (Py.subscript x key) eqn:Hx.
  - destruct (Py.subscripts rest key); [discriminate|].
    intros H; inversion H; subst; auto.
  - intros H; inversion H; subst; eapply subscript_raises; eauto.
Qed.

Lemma count_loop_app {World A} (body : A -> @M World bool) xs ys acc
      (st : @state World) :
  count_loop body (xs ++ ys) acc st
  = match count_loop body xs acc st with
    | (Return n, st') => count_loop body ys n st'
    | (Raise e, st') => (Raise e, st')
    end.
Proof.
  revert acc st; induction xs as [|x rest IH]; intros acc st; [reflexivity|].
  cbn [app count_loop]; rewrite !bind_run.
  destruct (body x st) as [[ok|e] st1]; [apply IH|reflexivity].
Qed.

(** X7: the recent products are checked only after the clear pass.  When the
    run has fetched the metadata and a non-empty list of recent products and
    the clear pass has returned, and some recent product has no usable
    identifier, the run raises [KeyError 'id'] or [TypeError] in the very
    state the clear pass left: the removals stay done and no addition is
    issued. *)
Theorem recent_products_are_checked_after_the_clear :
  forall (World : Type) (send : request -> World -> result pyval * World)
         clock isoformat self entries items cleared e
         (st0 st1 st2 st3 : @state World),
    get_collection_info send self (collection_id self) st0
    = (Return (PDict entries), st1) ->
    entries <> [] ->
    get_new_products send clock isoformat self 7 st1 = (Return (PList items), st2) ->
    items <> [] ->
    clear_collection send self (collection_id self) st2 = (Return cleared, st3) ->
    Py.subscripts items "id" = Raise e ->
    run_weekly_update send clock isoformat self st0 = (Raise e, st3)
    /\ (e = KeyError "id" \/ e = TypeError).
Proof.
  intros World send clock isoformat self entries items cleared e
         st0 st1 st2 st3 Hinfo Hentries Hnew Hitems Hclear Hids.
  split; [|eapply subscripts_raises; eauto].
  unfold run_weekly_update; rewrite bind_run, Hinfo.
  destruct entries as [|kv rest]; [contradiction|].
  cbn [Py.truthy negb Py.get].
  step.
  rewrite bind_run, Hnew.
  destruct items as [|p more]; [contradiction|].
  cbn [Py.truthy negb Py.iter].
  rewrite bind_run, Hclear.
  step.
  rewrite bind_run; unfold lift at 1; rewrite Hids; reflexivity.
Qed.

(** X8: the clear pass stops at a member without a usable identifier.  Under
    the error model of the client, when the member listing returns the
    members [good ++ bad :: rest], the members of [good] carry the
    identifiers [mids] and [bad] carries none, the clear pass raises
    ([KeyError 'id'] or [TypeError]) after issuing exactly the removals of
    [mids]: the members listed after [bad] are never removed. *)
Theorem clear_stops_at_a_member_without_id :
  forall (World : Type) (send : request -> World -> result pyval * World)
         self cid good bad rest mids e (st st1 : @state World),
    transport_errors_only send ->
    get_collection_products send self cid st
    = (Return (PList (good ++ bad :: rest)), st1) ->
    Py.subscripts good "id" = Return mids ->
    Py.subscript bad "id" = Raise e ->
    exists dels st2,
      clear_collection send self cid st = (Raise e, st2) /\
      trace st2 = (trace st1 ++ dels)%list /\
      map ev_request dels = map (remove_request self cid) mids /\
      (e = KeyError "id" \/ e = TypeError).
Proof.
  intros World send self cid good bad rest mids e st st1
         Htransport Hlist Hgood Hbad.
  destruct (count_loop_calls send
                             (remove_product_from_collection send self cid)
                             (remove_request self cid))
    with (xs := mids) (acc := 0) (st := st1)
    as (dels & st2 & Hloop & Htrace & Hdels).
  { intros x st0; rewrite remove_product_from_collection_eq.
    rewrite (flag_call_succeeded send Htransport); reflexivity. }
  exists dels, st2; split; [|split; [exact Htrace|split; [exact Hdels|]]].
  2:{ eapply subscript_raises; eauto. }
  unfold clear_collection; rewrite bind_run, Hlist.
  assert (Py.truthy (PList (good ++ bad :: rest)) = true) as ->
      by (destruct good; reflexivity).
  cbn [negb Py.iter].
  step.
  rewrite bind_run, count_loop_app.
  rewrite (count_loop_subscripts _ _ _ _ _ _ Hgood).
  change (fun product_id : pyval =>
            remove_product_from_collection send self cid product_id)
    with (remove_product_from_collection send self cid).
  rewrite Hloop.
  cbn [count_loop]; rewrite !bind_run; unfold lift at 1; rewrite Hbad.
  reflexivity.
Qed.

(** X9: a product listing that cannot be unwrapped escapes the client.  When
    the metadata is a record and the listing call is answered with a body
    that is not a dictionary, or whose 'products' has no length, then
    [get_new_products] does not degrade to the empty list: the run raises
    [AttributeError] or [TypeError] right after the listing call. *)
Theorem unusable_listing_escapes :
  forall (World : Type) (send : request -> World -> result pyval * World)
         clock isoformat self entries body e (st0 st1 : @state World),
    get_collection_info send self (collection_id self) st0
    = (Return (PDict entries), st1) ->
    entries <> [] ->
    answer send (products_request self (cutoff clock isoformat 7 st1)) st1
    = Return body ->
    unwrap_products body = Raise e ->
    run_weekly_update send clock isoformat self st0
    = (Raise e,
       logged send (products_request self (cutoff clock isoformat 7 st1)) st1)
    /\ (e = AttributeError \/ e = TypeError).
Proof.
  intros World send clock isoformat self entries body e st0 st1
         Hinfo Hentries Hanswer Hbody.
  pose proof (unwrap_products_raises _ _ Hbody) as Hkind.
  split; [|exact Hkind].
  unfold run_weekly_update; rewrite bind_run, Hinfo.
  destruct entries as [|kv rest]; [contradiction|].
  cbn [Py.truthy negb Py.get].
  step.
  rewrite bind_run, get_new_products_eq, Hanswer; cbn [and_then].
  rewrite Hbody; destruct Hkind as [-> | ->]; reflexivity.
Qed.

(** X10: an answered metadata call without a usable record is fatal.  When
    the metadata call returns a dictionary whose 'collection' is missing or
    empty ([None], an empty record, ...), the run ends with the failure
    summary after that single call, exactly as when the call fails. *)
Theorem metadata_without_record_is_fatal :
  forall (World : Type) (send : request -> World -> result pyval * World)
         clock isoformat self body (st0 : @state World),
    answer send (info_request self (collection_id self)) st0
    = Return (PDict body) ->
    Py.truthy (Py.find body "collection" PNone) = false ->
    run_weekly_update send clock isoformat self st0
    = (Return (failure_summary
                 (stamp clock isoformat
                        (logged send (info_request self (collection_id self)) st0))),
       logged send (info_request self (collection_id self)) st0).
Proof.
  intros World send clock isoformat self body st0 Hanswer Hfalsy.
  apply run_failure with (info := Py.find body "collection" PNone);
    [|exact Hfalsy].
  rewrite get_collection_info_eq, Hanswer; reflexivity.
Qed.

(** X11: a failed product listing is reported as success.  When the metadata
    is a record and the listing call raises a transport or HTTP error, or is
    answered with a dictionary without 'products', the run returns the
    summary with [success = True] and 'No new products to add' right after
    that call: it cannot be told from a week without new products. *)
Theorem failed_listing_is_reported_as_success :
  forall (World : Type) (send : request -> World -> result pyval * World)
         clock isoformat self entries (st0 st1 : @state World),
    get_collection_info send self (collection_id self) st0
    = (Return (PDict entries), st1) ->
    entries <> [] ->
    ((exists e,
         answer send (products_request self (cutoff clock isoformat 7 st1)) st1
         = Raise e /\ is_request_exception e = true)
     \/
     (exists body,
         answer send (products_request self (cutoff clock isoformat 7 st1)) st1
         = Return (PDict body) /\ Py.lookup body "products" = None)) ->
    run_weekly_update send clock isoformat self st0
    = (Return (empty_summary
                 (stamp clock isoformat
                        (logged send
                                (products_request self
                                                  (cutoff clock isoformat 7 st1))
                                st1))),
       logged send (products_request self (cutoff clock isoformat 7 st1)) st1).
Proof.
  intros World send clock isoformat self entries st0 st1 Hinfo Hentries Hcause.
  apply (run_empty send clock isoformat self entries (PList []) st0 st1 _
                   Hinfo Hentries); [|reflexivity].
  rewrite get_new_products_eq.
  destruct Hcause as [(e & -> & He)|(body & -> & Hmissing)].
  - cbn [and_then degrade]; rewrite He; reflexivity.
  - cbn [and_then]; unfold unwrap_products, Py.get, Py.find.
    rewrite Hmissing; reflexivity.
Qed.

(** X12: in every summary a run returns, in any environment, the number of
    products added lies between 0 and the number of products found. *)
Theorem added_never_exceeds_found :
  forall (World : Type) (send : request -> World -> result pyval * World)
         clock isoformat self summary found added (st0 st' : @state World),
    run_weekly_update send clock isoformat self st0 = (Return summary, st') ->
    Py.lookup summary "products_found" = Some (PInt found) ->
    Py.lookup summary "products_added" = Some (PInt added) ->
    0 <= added <= found.
Proof.
  intros World send clock isoformat self summary found added st0 st'
         Hrun Hfound Hadded.
  apply run_inv in Hrun.
  destruct Hrun as [(info & _ & _ & ->)
                   |[(entries & products & st1 & _ & _ & _ & _ & ->)
                    |(entries & items & ids & cleared & n & st1 & st2 & st3
                      & _ & _ & _ & _ & _ & Hids & Hadd & ->)]].
  - discriminate.
  - inversion Hfound; inversion Hadded; lia.
  - inversion Hfound; inversion Hadded; subst.
    unfold add_products_to_collection in Hadd.
    apply count_loop_bounds in Hadd.
    rewrite (subscripts_length _ _ _ Hids) in Hadd; lia.
Qed.

(** ** The console report *)


(** X13: what [main] prints when the metadata fetch fails.  The block shows
    the defaults of the fields the failure summary lacks (collection
    'Unknown', 0 found, 0 added, cleared 'False'), the status FAILED, the
    time of the failure and the error text; the exit code is 1. *)
Theorem console_of_a_metadata_failure :
  forall (World : Type) (send : request -> World -> result pyval * World)
         clock isoformat repr describe getenv self info (st st1 : @state World),
    __init__ getenv = Return self ->
    get_collection_info send self (collection_id self) st = (Return info, st1) ->
    Py.truthy info = false ->
    main_console send clock isoformat repr describe getenv st
    = ((1,
        [newline ++ rule;
         "SHOPIFY COLLECTION AUTOMATION SUMMARY";
         rule;
         "Collection: Unknown";
         "Products Found: 0";
         "Products Added: 0";
         "Collection Cleared: False";
         "Status: FAILED";
         "Timestamp: " ++ isoformat (clock (world st1));
         "Error: Could not fetch collection information";
         rule]),
       st1).
Proof.
  intros World send clock isoformat repr describe getenv self info st st1
         Hinit Hinfo Hfalsy.
  unfold main_console; rewrite Hinit.
  rewrite (run_failure send clock isoformat self info st st1 Hinfo Hfalsy).
  reflexivity.
Qed.

(** X14: what [main] prints after an empty window.  The run succeeded, the
    exit code is 0 and the status is SUCCESS, but the block shows the
    collection as 'Unknown' and 'Collection Cleared: False': the summary of
    this path carries neither field and the report falls back on its
    defaults.  The message 'No new products to add' is not printed. *)
Theorem console_of_an_empty_window :
  forall (World : Type) (send : request -> World -> result pyval * World)
         clock isoformat repr describe getenv self entries products
         (st st1 st2 : @state World),
    __init__ getenv = Return self ->
    get_collection_info send self (collection_id self) st
    = (Return (PDict entries), st1) ->
    entries <> [] ->
    get_new_products send clock isoformat self 7 st1 = (Return products, st2) ->
    Py.truthy products = false ->
    main_console send clock isoformat repr describe getenv st
    = ((0,
        [newline ++ rule;
         "SHOPIFY COLLECTION AUTOMATION SUMMARY";
         rule;
         "Collection: Unknown";
         "Products Found: 0";
         "Products Added: 0";
         "Collection Cleared: False";
         "Status: SUCCESS";
         "Timestamp: " ++ isoformat (clock (world st2));
         rule]),
       st2).
Proof.
  intros World send clock isoformat repr describe getenv self entries products
         st st1 st2 Hinit Hinfo Hentries Hnew Hfalsy.
  unfold main_console; rewrite Hinit.
  rewrite (run_empty send clock isoformat self entries products st st1 st2
                     Hinfo Hentries Hnew Hfalsy).
  reflexivity.
Qed.


(** ** Instances of the properties above *)

Lemma run_call_sequence_witness :
  exists evs summary st',
    Fixture.run Remote.no_faults (Fixture.shop [201; 202] [101])
    = (Return summary, st') /\
    trace st' = ([] ++ evs)%list /\
    map ev_request evs
    = (info_request Fixture.self "42"
         :: products_request Fixture.self "2025-09-01T00:00:00"
         :: members_request Fixture.self "42"
         :: map (remove_request Fixture.self "42") [PInt 201; PInt 202]
         ++ map (add_request Fixture.self "42") [PInt 101])%list /\
    List.length evs = 6%nat.
Proof.
  eapply (run_call_sequence
            Remote.store (Remote.send Remote.no_faults) Remote.clock
            Fixture.isoformat Fixture.self
            [("id", PInt 42); ("title", PStr "New this week")]
            [Fixture.product 101] [PInt 101]
            [PDict [("id", PInt 201)]; PDict [("id", PInt 202)]]
            [PInt 201; PInt 202]
            (Remote.start (Fixture.shop [201; 202] [101]))
            (snd (get_collection_info
                    (Remote.send Remote.no_faults) Fixture.self "42"
                    (Remote.start (Fixture.shop [201; 202] [101]))))).
  - apply no_faults_transport.
  - vm_compute; reflexivity.
  - discriminate.
  - vm_compute; reflexivity.
  - discriminate.
  - reflexivity.
  - vm_compute; reflexivity.
  - reflexivity.
Defined.

Lemma fault_free_run_converges_witness :
  exists st',
    run_weekly_update (Paged.send 250 Remote.no_faults) Remote.clock
                      Fixture.isoformat Fixture.self
                      (Remote.start (Fixture.shop [201; 202] [103; 101; 103]))
    = (Return (full_summary (PStr "New this week") 3 3 true
                            (stamp Remote.clock Fixture.isoformat st')),
       st') /\
    Remote.members (world st') = [103; 101] /\
    NoDup (Remote.members (world st')) /\
    (forall z, In z (Remote.members (world st')) <-> In z [103; 101; 103]).
Proof.
  apply (fault_free_run_converges
           250%nat Fixture.isoformat Fixture.self
           [("id", PInt 42); ("title", PStr "New this week")]
           [Fixture.product 103; Fixture.product 101; Fixture.product 103]
           [103; 101; 103]
           (Remote.start (Fixture.shop [201; 202] [103; 101; 103])));
    solve [reflexivity | discriminate | simpl; lia].
Defined.

Lemma fault_free_run_is_idempotent_witness :
  exists first second st' st'',
    run_weekly_update (Paged.send 250 Remote.no_faults) Remote.clock
                      Fixture.isoformat Fixture.self
                      (Remote.start (Fixture.shop [201; 202] [101; 102]))
    = (Return first, st') /\
    run_weekly_update (Paged.send 250 Remote.no_faults) Remote.clock
                      Fixture.isoformat Fixture.self st'
    = (Return second, st'') /\
    Remote.members (world st'') = Remote.members (world st') /\
    Py.lookup second "products_found" = Py.lookup first "products_found" /\
    Py.lookup second "products_added" = Py.lookup first "products_added" /\
    Py.lookup second "collection_cleared" = Some (PBool true).
Proof.
  apply (fault_free_run_is_idempotent
           250%nat Fixture.isoformat Fixture.self
           [("id", PInt 42); ("title", PStr "New this week")]
           [Fixture.product 101; Fixture.product 102]
           [101; 102]
           (Remote.start (Fixture.shop [201; 202] [101; 102])));
    solve [reflexivity | discriminate | simpl; lia].
Defined.


Lemma recent_products_are_checked_after_the_clear_witness :
  fst (run_weekly_update
         (Remote.send Remote.no_faults) Remote.clock Fixture.isoformat
         Fixture.self (Remote.start (Cases.without_id [201])))
  = Raise (KeyError "id")
  /\ Remote.members
       (world (snd (run_weekly_update
                      (Remote.send Remote.no_faults) Remote.clock
                      Fixture.isoformat Fixture.self
                      (Remote.start (Cases.without_id [201])))))
     = [].
Proof.
  set (send := Remote.send Remote.no_faults).
  set (st0 := Remote.start (Cases.without_id [201])).
  set (st1 := snd (get_collection_info send Fixture.self "42" st0)).
  set (st2 := snd (get_new_products send Remote.clock Fixture.isoformat
                                    Fixture.self 7 st1)).
  set (st3 := snd (clear_collection send Fixture.self "42" st2)).
  destruct (recent_products_are_checked_after_the_clear
              Remote.store send Remote.clock Fixture.isoformat Fixture.self
              [("id", PInt 42); ("title", PStr "New this week")]
              [PDict [("title", PStr "no id")]] true (KeyError "id")
              st0 st1 st2 st3) as [Hrun _].
  - vm_compute; reflexivity.
  - discriminate.
  - vm_compute; reflexivity.
  - discriminate.
  - vm_compute; reflexivity.
  - reflexivity.
  - rewrite Hrun; split; reflexivity.
Defined.

Lemma clear_stops_at_a_member_without_id_witness :
  exists dels st2,
    clear_collection Cases.scripted Fixture.self "42"
                     (mkState Cases.broken_members [])
    = (Raise (KeyError "id"), st2) /\
    trace st2
    = (trace (snd (get_collection_products
                     Cases.scripted Fixture.self "42"
                     (mkState Cases.broken_members [])))
       ++ dels)%list /\
    map ev_request dels = map (remove_request Fixture.self "42") [PInt 1] /\
    (KeyError "id" = KeyError "id" \/ KeyError "id" = TypeError).
Proof.
  apply (clear_stops_at_a_member_without_id
           (list (option pyval)) Cases.scripted Fixture.self "42"
           [PDict [("id", PInt 1)]] (PDict [("handle", PStr "no id")])
           [PDict [("id", PInt 3)]] [PInt 1] (KeyError "id")
           (mkState Cases.broken_members [])).
  - apply scripted_transport.
  - vm_compute; reflexivity.
  - reflexivity.
  - reflexivity.
Defined.

Lemma unusable_listing_escapes_witness :
  fst (run_weekly_update
         (Remote.send Remote.no_faults) Remote.clock Fixture.isoformat
         Fixture.self (Remote.start (Cases.null_products [201])))
  = Raise TypeError.
Proof.
  set (send := Remote.send Remote.no_faults).
  set (st0 := Remote.start (Cases.null_products [201])).
  set (st1 := snd (get_collection_info send Fixture.self "42" st0)).
  destruct (unusable_listing_escapes
              Remote.store send Remote.clock Fixture.isoformat Fixture.self
              [("id", PInt 42); ("title", PStr "New this week")]
              (PDict [("products", PNone)]) TypeError st0 st1) as [Hrun _].
  - vm_compute; reflexivity.
  - discriminate.
  - reflexivity.
  - reflexivity.
  - rewrite Hrun; reflexivity.
Defined.

Lemma metadata_without_record_is_fatal_witness :
  fst (run_weekly_update
         (Remote.send Remote.no_faults) Remote.clock Fixture.isoformat
         Fixture.self (Remote.start (Cases.no_record [201])))
  = Return (failure_summary (PStr "2025-09-08T00:00:00")).
Proof.
  rewrite (metadata_without_record_is_fatal
             Remote.store (Remote.send Remote.no_faults) Remote.clock
             Fixture.isoformat Fixture.self
             [("errors", PStr "Not Found")]
             (Remote.start (Cases.no_record [201])));
    reflexivity.
Defined.

Lemma failed_listing_is_reported_as_success_witness :
  Fixture.run (Remote.fault_at 1) (Fixture.shop [201] [101])
  = (Return (empty_summary (PStr "2025-09-08T00:00:00")),
     snd (Fixture.run (Remote.fault_at 1) (Fixture.shop [201] [101]))).
Proof.
  set (send := Remote.send (Remote.fault_at 1)).
  set (st0 := Remote.start (Fixture.shop [201] [101])).
  set (st1 := snd (get_collection_info send Fixture.self "42" st0)).
  unfold Fixture.run; fold send; fold st0.
  rewrite (failed_listing_is_reported_as_success
             Remote.store send Remote.clock Fixture.isoformat Fixture.self
             [("id", PInt 42); ("title", PStr "New this week")] st0 st1).
  - reflexivity.
  - vm_compute; reflexivity.
  - discriminate.
  - left; exists (RequestException "500 Server Error"); split; reflexivity.
Defined.

Lemma added_never_exceeds_found_witness : 0 <= 1 <= 2.
Proof.
  apply (added_never_exceeds_found
           Remote.store (Remote.send (Remote.fault_at 3)) Remote.clock
           Fixture.isoformat Fixture.self
           (full_summary (PStr "New this week") 2 1 true
                         (PStr "2025-09-08T00:00:00"))
           2 1
           (Remote.start (Fixture.shop [] [101; 101]))
           (snd (Fixture.run (Remote.fault_at 3) (Fixture.shop [] [101; 101]))));
    [vm_compute; reflexivity | reflexivity | reflexivity].
Defined.

Lemma console_of_a_metadata_failure_witness :
  main_console (Remote.send (Remote.fault_at 0)) Remote.clock Fixture.isoformat
               Cases.repr Cases.describe Fixture.getenv
               (Remote.start (Fixture.shop [201] [101]))
  = ((1,
      [newline ++ rule;
       "SHOPIFY COLLECTION AUTOMATION SUMMARY";
       rule;
       "Collection: Unknown";
       "Products Found: 0";
       "Products Added: 0";
       "Collection Cleared: False";
       "Status: FAILED";
       "Timestamp: 2025-09-08T00:00:00";
       "Error: Could not fetch collection information";
       rule]),
     snd (get_collection_info (Remote.send (Remote.fault_at 0)) Fixture.self "42"
                              (Remote.start (Fixture.shop [201] [101])))).
Proof.
  apply (console_of_a_metadata_failure
           Remote.store (Remote.send (Remote.fault_at 0)) Remote.clock
           Fixture.isoformat Cases.repr Cases.describe Fixture.getenv
           Fixture.self PNone
           (Remote.start (Fixture.shop [201] [101]))
           (snd (get_collection_info
                   (Remote.send (Remote.fault_at 0)) Fixture.self "42"
                   (Remote.start (Fixture.shop [201] [101])))));
    [reflexivity | vm_compute; reflexivity | reflexivity].
Defined.

Lemma console_of_an_empty_window_witness :
  main_console (Remote.send Remote.no_faults) Remote.clock Fixture.isoformat
               Cases.repr Cases.describe Fixture.getenv
               (Remote.start (Fixture.shop [201] []))
  = ((0,
      [newline ++ rule;
       "SHOPIFY COLLECTION AUTOMATION SUMMARY";
       rule;
       "Collection: Unknown";
       "Products Found: 0";
       "Products Added: 0";
       "Collection Cleared: False";
       "Status: SUCCESS";
       "Timestamp: 2025-09-08T00:00:00";
       rule]),
     snd (Fixture.run Remote.no_faults (Fixture.shop [201] []))).
Proof.
  apply (console_of_an_empty_window
           Remote.store (Remote.send Remote.no_faults) Remote.clock
           Fixture.isoformat Cases.repr Cases.describe Fixture.getenv
           Fixture.self
           [("id", PInt 42); ("title", PStr "New this week")] (PList [])
           (Remote.start (Fixture.shop [201] []))
           (snd (get_collection_info (Remote.send Remote.no_faults) Fixture.self
                                     "42" (Remote.start (Fixture.shop [201] []))))
           (snd (Fixture.run Remote.no_faults (Fixture.shop [201] []))));
    [reflexivity | vm_compute; reflexivity | discriminate
     | vm_compute; reflexivity | reflexivity].
Defined.
